(** * scripts/validate-skills-ref.py: the manifest linter

    A shallow embedding of the validation script and the properties its
    specification states about it.

    Python's [str] is a sequence of Unicode code points, so a string is a
    list of code points [N] here; [dict[str, str]] is a [gmap]; a [set] is
    known by the order in which the interpreter iterates it; an exception
    is [None] in [option]. *)

From Stdlib Require Import NArith Ascii String Decimal DecimalNat.
From stdpp Require Import base option list gmap.

Abbreviation char := N (only parsing).
Abbreviation str := (list N) (only parsing).

(** A literal: the code points of an ASCII literal of the development. *)
Definition py (s : string) : str :=
  (λ a, N_of_ascii a) <$> list_ascii_of_string s.
Arguments py s%_string.

(** ** The built-in string operations the script calls *)

Module Str.

Definition LF : str := [10%N].
Definition CR : str := [13%N].
Definition DQUOTE : str := [34%N].

(** [str.isspace] on one code point (the Unicode white space set). *)
Definition is_space (c : char) : bool :=
  ((9 <=? c) && (c <=? 13) || (28 <=? c) && (c <=? 32) || (c =? 133)
   || (c =? 160) || (c =? 5760) || (8192 <=? c) && (c <=? 8202)
   || (c =? 8232) || (c =? 8233) || (c =? 8239) || (c =? 8287)
   || (c =? 12288))%N.

(** The line boundaries of [str.splitlines]. *)
Definition is_linebreak (c : char) : bool :=
  ((10 <=? c) && (c <=? 13) || (28 <=? c) && (c <=? 30) || (c =? 133)
   || (c =? 8232) || (c =? 8233))%N.

(** [s.splitlines()]: a carriage return followed by a line feed is one
    boundary, and a final boundary opens no further line. *)
Fixpoint splitlines (s : str) : list str :=
  match s with
  | [] => []
  | c :: rest =>
      if is_linebreak c then
        match c, rest with
        | 13%N, 10%N :: rest' => [] :: splitlines rest'
        | _, _ => [] :: splitlines rest
        end
      else
        match splitlines rest with
        | [] => [[c]]
        | l :: ls => (c :: l) :: ls
        end
  end.

(** Dropping a run of characters at the left, at the right, at both ends. *)
Fixpoint lstrip_by (p : char → bool) (s : str) : str :=
  match s with
  | [] => []
  | c :: rest => if p c then lstrip_by p rest else s
  end.

Definition rstrip_by (p : char → bool) (s : str) : str :=
  reverse (lstrip_by p (reverse s)).

Definition strip_by (p : char → bool) (s : str) : str :=
  rstrip_by p (lstrip_by p s).

(** [s.strip()] *)
Definition strip (s : str) : str := strip_by is_space s.

(** [s.strip(chars)] *)
Definition strip_chars (chars : str) (s : str) : str :=
  strip_by (λ c, bool_decide (c ∈ chars)) s.

(** [s.startswith(p)] *)
Fixpoint startswith (p s : str) : bool :=
  match p, s with
  | [], _ => true
  | _ :: _, [] => false
  | a :: p', b :: s' => (a =? b)%N && startswith p' s'
  end.

(** [needle in hay] *)
Fixpoint contains (needle hay : str) : bool :=
  startswith needle hay ||
  match hay with
  | [] => false
  | _ :: hay' => contains needle hay'
  end.

(** [s.split(sep, 1)] for a separator of one character: at most one
    split, at the first occurrence. *)
Fixpoint split1 (sep : char) (s : str) : list str :=
  match s with
  | [] => [[]]
  | c :: rest =>
      if (c =? sep)%N then [[]; rest]
      else match split1 sep rest with
           | before :: more => (c :: before) :: more
           | [] => [[c]]
           end
  end.

Fixpoint uint_digits (d : Decimal.uint) : str :=
  match d with
  | Nil => []
  | D0 d => 48%N :: uint_digits d
  | D1 d => 49%N :: uint_digits d
  | D2 d => 50%N :: uint_digits d
  | D3 d => 51%N :: uint_digits d
  | D4 d => 52%N :: uint_digits d
  | D5 d => 53%N :: uint_digits d
  | D6 d => 54%N :: uint_digits d
  | D7 d => 55%N :: uint_digits d
  | D8 d => 56%N :: uint_digits d
  | D9 d => 57%N :: uint_digits d
  end.

(** [f"{n}"] for a natural number *)
Definition of_nat (n : nat) : str := uint_digits (Nat.to_uint n).

End Str.

(** ** The two patterns given to [re.findall] *)

Module Re.

(** The longest prefix of [s] whose characters all satisfy [p]: what a
    greedy character class with [+] takes. *)
Fixpoint run_of (p : char → bool) (s : str) : str :=
  match s with
  | [] => []
  | c :: rest => if p c then c :: run_of p rest else []
  end.

Definition not_backtick (c : char) : bool := negb (c =? 96)%N.

(** One attempt of a pattern at the start of the input: the text of
    group 1 and the length of the whole match. *)
Definition matcher := str → option (str * nat).

(** The pattern [`([^`]+)`]. The class excludes the closing backtick, so
    the greedy run either is followed by it or no shorter run is. *)
Definition backticked : matcher := λ s,
  match s with
  | 96%N :: s1 =>
      let body := run_of not_backtick s1 in
      match body, drop (length body) s1 with
      | _ :: _, 96%N :: _ => Some (body, 2 + length body)
      | _, _ => None
      end
  | _ => None
  end.

(** The pattern [`(references/[^`]+)`]. *)
Definition backticked_reference : matcher := λ s,
  match s with
  | 96%N :: s1 =>
      let lit := py "references/" in
      if Str.startswith lit s1 then
        let s2 := drop (length lit) s1 in
        let body := run_of not_backtick s2 in
        match body, drop (length body) s2 with
        | _ :: _, 96%N :: _ => Some (lit ++ body, 2 + length lit + length body)
        | _, _ => None
        end
      else None
  | _ => None
  end.

(** [re.findall]: the matches from left to right, each search starting
    where the previous match ended; [skip] counts the characters of the
    current match still to be passed. Neither pattern matches the empty
    string. *)
Fixpoint findall_from (m : matcher) (skip : nat) (s : str) : list str :=
  match s with
  | [] => []
  | _ :: rest =>
      match skip with
      | S k => findall_from m k rest
      | O =>
          match m s with
          | Some (group, len) => group :: findall_from m (pred len) rest
          | None => findall_from m 0 rest
          end
      end
  end.

Definition findall (m : matcher) (s : str) : list str := findall_from m 0 s.

End Re.

(** ** [pathlib] paths and the file system *)

Module Path.

(** A pure POSIX path: its anchor (empty for a relative path) and its
    components. *)
Record t := mk { anchor : str; parts : list str }.

#[global] Instance t_eq_dec : EqDecision t.
Proof. solve_decision. Defined.

Fixpoint split_on (sep : char) (s : str) : list str :=
  match s with
  | [] => [[]]
  | c :: rest =>
      if (c =? sep)%N then [] :: split_on sep rest
      else match split_on sep rest with
           | h :: more => (c :: h) :: more
           | [] => [[c]]
           end
  end.

(** Parsing a segment: slashes are collapsed, [.] components dropped,
    [..] kept; exactly two leading slashes are an anchor of their own. *)
Definition parse (s : str) : t :=
  {| anchor :=
       if Str.startswith (py "//") s && negb (Str.startswith (py "///") s)
       then py "//"
       else if Str.startswith (py "/") s then py "/" else [];
     parts :=
       filter (λ p, p ≠ [] ∧ p ≠ py ".") (split_on 47%N s) |}.

(** [p / segment]: an absolute segment replaces the path. *)
Definition joinpath (p : t) (segment : str) : t :=
  let q := parse segment in
  match anchor q with
  | [] => {| anchor := anchor p; parts := parts p ++ parts q |}
  | _ :: _ => q
  end.

(** [p.name]: the final component, empty for a bare anchor. *)
Definition name (p : t) : str := List.last (parts p) [].

End Path.

Infix "//" := Path.joinpath (at level 40, left associativity).

(** What the script observes of the file system. A probe is [None] when
    [Path.exists] or [Path.is_dir] raises: an [OSError] other than that of
    a missing entry, such as the one for a name that is too long, is not
    caught by them. [read_text] is [None] when [Path.read_text] raises (a
    directory, undecodable bytes). *)
Record FS := {
  path_exists : Path.t → option bool;
  path_is_dir : Path.t → option bool;
  path_read_text : Path.t → option str
}.

(** What the script observes of the interpreter: the order in which a set
    built from a list of strings is iterated. It depends on the hash seed
    of the run and on the order of insertion; each distinct string of the
    list comes once. *)
Record Interpreter := {
  set_iter : list str → list str;
  set_iter_NoDup : ∀ l, NoDup (set_iter l);
  set_iter_elem : ∀ l x, x ∈ set_iter l ↔ x ∈ l
}.

(** ** The script *)

Fixpoint frontmatter_loop (lines : list str) (frontmatter : gmap str str)
  : option (gmap str str) :=
  match lines with
  | [] => Some frontmatter
  | line :: rest =>
      if decide (Str.strip line = py "---") then Some frontmatter
      else if negb (Str.contains (py ":") line)
      then frontmatter_loop rest frontmatter
      else
        match Str.split1 58%N line with
        | [key; value] =>
            frontmatter_loop rest
              (<[Str.strip key :=
                   Str.strip_chars (py "'")
                     (Str.strip_chars Str.DQUOTE (Str.strip value))]>
                 frontmatter)
        | _ => None
        end
  end.

(** [None] stands for the [ValueError] of unpacking [key, value]. *)
Definition _parse_frontmatter (text : str) : option (gmap str str) :=
  match Str.splitlines text with
  | [] => Some ∅
  | first :: rest =>
      if decide (Str.strip first ≠ py "---") then Some ∅
      else frontmatter_loop rest ∅
  end.

(** The error messages of the report. *)
Module Msg.

Definition missing_manifest : str := py "SKILL.md is missing.".

Definition too_long (n : nat) : str :=
  py "SKILL.md should be 500 lines or fewer (found " ++ Str.of_nat n ++ py ").".

Definition deprecated_path : str :=
  py "SKILL.md references utilities/common-roles/, but the directory is common-roles/.".

Definition name_mismatch (skill_name folder : str) : str :=
  py "Frontmatter name '" ++ skill_name
    ++ py "' must match folder name '" ++ folder ++ py "'.".

Definition missing_roles_dir : str := py "Missing common-roles/ directory.".

Definition missing_role (role : str) : str :=
  py "Role listed in SKILL.md missing: common-roles/" ++ role ++ py ".md".

Definition missing_reference (ref : str) : str :=
  py "Referenced file not found: " ++ ref.

Definition missing_how_to : str :=
  py "SKILL.md references delegate.how-to.md, but the file does not exist.".

End Msg.

(** The loop over the lines that collects the listed roles, with its flag
    [in_roles_table] and its [continue] and [break]. *)
Fixpoint roles_loop (lines : list str) (in_roles_table : bool)
  (roles : list str) : list str :=
  match lines with
  | [] => roles
  | line :: rest =>
      if decide (Str.strip line = py "### Available Roles")
      then roles_loop rest true roles
      else if in_roles_table && Str.startswith (py "### ") line then roles
      else if in_roles_table
      then roles_loop rest in_roles_table
             (roles ++ Re.findall Re.backticked line)
      else roles_loop rest in_roles_table roles
  end.

(** [for role in roles: ...]; a probe that raises ends the loop. *)
Fixpoint check_roles (fs : FS) (common_roles_dir : Path.t)
  (roles : list str) (errors : list str) : option (list str) :=
  match roles with
  | [] => Some errors
  | role :: rest =>
      let role_file := common_roles_dir // (role ++ py ".md") in
      present ← path_exists fs role_file;
      check_roles fs common_roles_dir rest
        (if negb present then errors ++ [Msg.missing_role role] else errors)
  end.

(** [for ref in set(...): ...], given the strings in the order in which
    the set is iterated; a probe that raises ends the loop. *)
Fixpoint check_references (fs : FS) (repo_root : Path.t)
  (refs : list str) (errors : list str) : option (list str) :=
  match refs with
  | [] => Some errors
  | ref :: rest =>
      let ref_path := repo_root // ref in
      present ← path_exists fs ref_path;
      check_references fs repo_root rest
        (if negb present then errors ++ [Msg.missing_reference ref] else errors)
  end.

Definition _manual_lint (python : Interpreter) (fs : FS) (repo_root : Path.t)
  : option (list str) :=
  let errors : list str := [] in
  let skill_path := repo_root // py "SKILL.md" in
  skill_exists ← path_exists fs skill_path;
  if negb skill_exists then Some [Msg.missing_manifest]
  else
    text ← path_read_text fs skill_path;
    let lines := Str.splitlines text in
    let errors :=
      if decide (500 < length lines)
      then errors ++ [Msg.too_long (length lines)] else errors in
    let errors :=
      if Str.contains (py "utilities/common-roles") text
      then errors ++ [Msg.deprecated_path] else errors in
    frontmatter ← _parse_frontmatter text;
    let skill_name := frontmatter !! py "name" in
    let errors :=
      match skill_name with
      | Some skill_name =>
          if bool_decide (skill_name ≠ [])
             && bool_decide (skill_name ≠ Path.name repo_root)
          then errors ++ [Msg.name_mismatch skill_name (Path.name repo_root)]
          else errors
      | None => errors
      end in
    let common_roles_dir := repo_root // py "common-roles" in
    roles_dir_present ← path_is_dir fs common_roles_dir;
    let errors :=
      if negb roles_dir_present
      then errors ++ [Msg.missing_roles_dir] else errors in
    let roles := roles_loop lines false [] in
    errors ← check_roles fs common_roles_dir roles errors;
    errors ← check_references fs repo_root
                (set_iter python (Re.findall Re.backticked_reference text))
                errors;
    errors ←
      (if Str.contains (py "delegate.how-to.md") text
       then how_to_present ←
              path_exists fs (repo_root // py "delegate.how-to.md");
            Some (if negb how_to_present
                  then errors ++ [Msg.missing_how_to] else errors)
       else Some errors);
    Some errors.





(** ** Vocabulary of the specification *)

Module Spec.

Definition delimiter : str := py "---".
Definition roles_heading : str := py "### Available Roles".
Definition heading_marker : str := py "### ".

(** The elements of a list before the first one at which [stop] holds. *)
Fixpoint until {A} (stop : A → bool) (l : list A) : list A :=
  match l with
  | [] => []
  | x :: l' => if stop x then [] else x :: until stop l'
  end.

(** What follows the first element at which [start] holds. *)
Fixpoint after {A} (start : A → bool) (l : list A) : list A :=
  match l with
  | [] => []
  | x :: l' => if start x then l' else after start l'
  end.

(** The first line that is not empty, as the specification reads the
    top of a document. *)
Definition first_nonempty_line (text : str) : option str :=
  head (filter (λ line, line ≠ []) (Str.splitlines text)).

Definition is_delimiter (line : str) : bool :=
  bool_decide (Str.strip line = delimiter).

(** The lines of the header block, given the lines after the opening
    delimiter. *)
Definition header_block (rest : list str) : list str :=
  until is_delimiter rest.

Definition before_separator (line : str) : str :=
  Re.run_of (λ c, negb (c =? 58)%N) line.

Definition after_separator (line : str) : str :=
  drop (S (length (before_separator line))) line.

(** All double quotes, then all single quotes, off both ends. *)
Definition strip_quotes (value : str) : str :=
  Str.strip_chars (py "'") (Str.strip_chars Str.DQUOTE value).

(** The key and value a header line declares, if it has a separator. *)
Definition entry (line : str) : option (str * str) :=
  if bool_decide (58%N ∈ line)
  then Some (Str.strip (before_separator line),
             strip_quotes (Str.strip (after_separator line)))
  else None.

Definition add_entry (header : gmap str str) (line : str) : gmap str str :=
  match entry line with
  | Some (key, value) => <[key := value]> header
  | None => header
  end.

Definition header_of_block (block : list str) : gmap str str :=
  foldl add_entry ∅ block.

Definition is_roles_heading (line : str) : bool :=
  bool_decide (Str.strip line = roles_heading).

(** A line that opens another section of the same level. *)
Definition is_other_heading (line : str) : bool :=
  Str.startswith heading_marker line && negb (is_roles_heading line).

Definition is_heading (line : str) : bool :=
  Str.startswith heading_marker line.

(** The lines strictly between the designated heading and the next
    heading of the same level, as the specification words it. *)
Definition roles_section_as_specified (lines : list str) : list str :=
  until is_heading (after is_roles_heading lines).

(** The lines the role check reads: after the first designated heading,
    up to the next line with the heading marker that is not the
    designated heading again, such repeated headings left out. *)
Definition roles_section (lines : list str) : list str :=
  filter (λ line, is_roles_heading line = false)
    (until is_other_heading (after is_roles_heading lines)).

Definition tokens_of (lines : list str) : list str :=
  concat (Re.findall Re.backticked <$> lines).

Definition reference_tokens (text : str) : list str :=
  Re.findall Re.backticked_reference text.

(** The number of occurrences of a string in a list of strings. *)
Definition count (x : str) (l : list str) : nat :=
  length (filter (λ e, e = x) l).

(** Reading the decimal digits of a number back. *)
Fixpoint read_digits (s : str) : option Decimal.uint :=
  match s with
  | [] => Some Nil
  | c :: rest =>
      d ← read_digits rest;
      if (c =? 48)%N then Some (D0 d) else if (c =? 49)%N then Some (D1 d)
      else if (c =? 50)%N then Some (D2 d) else if (c =? 51)%N then Some (D3 d)
      else if (c =? 52)%N then Some (D4 d) else if (c =? 53)%N then Some (D5 d)
      else if (c =? 54)%N then Some (D6 d) else if (c =? 55)%N then Some (D7 d)
      else if (c =? 56)%N then Some (D8 d) else if (c =? 57)%N then Some (D9 d)
      else None
  end.

Definition read_nat (s : str) : option nat := Nat.of_uint <$> read_digits s.

End Spec.

(** The kinds of error in a report, told apart by how the message starts. *)
Module Report.

Definition is_too_long (e : str) : bool :=
  Str.startswith (py "SKILL.md should be 500 lines or fewer") e.

Definition is_name_mismatch (e : str) : bool :=
  Str.startswith (py "Frontmatter name '") e.

Definition is_missing_role (e : str) : bool :=
  Str.startswith (py "Role listed in SKILL.md missing: ") e.

Definition is_missing_reference (e : str) : bool :=
  Str.startswith (py "Referenced file not found: ") e.

Definition select (kind : str → bool) (errors : list str) : list str :=
  filter (λ e, kind e = true) errors.

(** What each check contributes to the report. *)
Definition length_errors (lines : list str) : list str :=
  if decide (500 < length lines) then [Msg.too_long (length lines)] else [].

Definition deprecated_errors (text : str) : list str :=
  if Str.contains (py "utilities/common-roles") text
  then [Msg.deprecated_path] else [].

Definition name_errors (header : gmap str str) (folder : str) : list str :=
  match header !! py "name" with
  | Some skill_name =>
      if bool_decide (skill_name ≠ []) && bool_decide (skill_name ≠ folder)
      then [Msg.name_mismatch skill_name folder] else []
  | None => []
  end.

Definition directory_errors (fs : FS) (repo_root : Path.t) : list str :=
  match path_is_dir fs (repo_root // py "common-roles") with
  | Some false => [Msg.missing_roles_dir]
  | _ => []
  end.

Definition role_file (repo_root : Path.t) (role : str) : Path.t :=
  repo_root // py "common-roles" // (role ++ py ".md").

Definition role_errors (fs : FS) (repo_root : Path.t) (roles : list str)
  : list str :=
  Msg.missing_role
    <$> filter (λ role, path_exists fs (role_file repo_root role) = Some false)
          roles.

Definition reference_errors (fs : FS) (repo_root : Path.t) (refs : list str)
  : list str :=
  Msg.missing_reference
    <$> filter (λ ref, path_exists fs (repo_root // ref) = Some false) refs.

Definition how_to_errors (fs : FS) (repo_root : Path.t) (text : str)
  : list str :=
  if Str.contains (py "delegate.how-to.md") text
  then match path_exists fs (repo_root // py "delegate.how-to.md") with
       | Some false => [Msg.missing_how_to]
       | _ => []
       end
  else [].

(** The probes the rule checker makes of a manifest that it has read all
    return. *)
Definition probes_return (fs : FS) (repo_root : Path.t) (text : str)
  : Prop :=
  is_Some (path_is_dir fs (repo_root // py "common-roles"))
  ∧ Forall (λ role, is_Some (path_exists fs (role_file repo_root role)))
      (roles_loop (Str.splitlines text) false [])
  ∧ Forall (λ ref, is_Some (path_exists fs (repo_root // ref)))
      (Re.findall Re.backticked_reference text)
  ∧ (Str.contains (py "delegate.how-to.md") text = true →
     is_Some (path_exists fs (repo_root // py "delegate.how-to.md"))).

End Report.

(** ** Concrete documents and file systems for the examples *)

Module Fixture.

Fixpoint assoc (p : Path.t) (files : list (Path.t * str)) : option str :=
  match files with
  | [] => None
  | (q, content) :: more => if decide (p = q) then Some content else assoc p more
  end.

(** No component of the path is longer than the 255 characters a file
    name may have. *)
Definition names_fit (p : Path.t) : bool :=
  forallb (λ part, length part <=? 255) (Path.parts p).

(** A file system holding the listed text files and directories; probing
    a path with a component that is too long raises. *)
Definition disk (files : list (Path.t * str)) (dirs : list Path.t) : FS :=
  {| path_exists p :=
       if names_fit p
       then Some (bool_decide (is_Some (assoc p files)) || bool_decide (p ∈ dirs))
       else None;
     path_is_dir p :=
       if names_fit p then Some (bool_decide (p ∈ dirs)) else None;
     path_read_text p := assoc p files |}.

Definition root : Path.t := Path.mk (py "/") [py "repo"; py "skill"].

Definition lines (ls : list str) : str := concat ((λ l, l ++ Str.LF) <$> ls).

(** A skill folder whose manifest has the given text, with the companion
    directory and the listed further files. *)
Definition skill (text : str) (others : list str) : FS :=
  disk ((root // py "SKILL.md", text) :: ((λ f, (root // f, [])) <$> others))
       [root; root // py "common-roles"].

(** A role of 253 characters: with [.md] its file name has 256, one more
    than a file name may have. *)
Definition long_role : str := replicate 253 97%N.

(** An interpreter that iterates a set in the order of first insertion. *)
Definition insertion_order : Interpreter.
Proof.
  refine {| set_iter := λ l, reverse (remove_dups (reverse l)) |}.
  - intros l. rewrite reverse_Permutation. apply NoDup_remove_dups.
  - intros l x. by rewrite elem_of_reverse, elem_of_remove_dups, elem_of_reverse.
Defined.

End Fixture.

(** ** Vocabulary for the remaining checks *)

(** The errors of the checks with a fixed message, told apart by how the
    message starts. *)
Module Fixed.

Definition is_deprecated_path (e : str) : bool :=
  Str.startswith (py "SKILL.md references utilities/") e.

Definition is_missing_roles_dir (e : str) : bool :=
  Str.startswith (py "Missing common-roles/") e.

Definition is_missing_how_to (e : str) : bool :=
  Str.startswith (py "SKILL.md references delegate.") e.

End Fixed.

Module Header.

(** The value a header line declares for [key], if it declares that key. *)
Definition declares (key : str) (line : str) : option str :=
  match Spec.entry line with
  | Some (k, v) => if decide (k = key) then Some v else None
  | None => None
  end.

(** The declared name passes the name check: there is none, or it is empty,
    or it is the folder's name. *)
Definition name_accepted (header : gmap str str) (folder : str) : Prop :=
  match header !! py "name" with
  | Some skill_name => skill_name = [] ∨ skill_name = folder
  | None => True
  end.

End Header.

(** ** Facts about the string operations *)

Section StrFacts.

Implicit Types (c a b : N) (s k v x y : list N) (p : N → bool).

Lemma startswith_single c s :
  Str.startswith [c] s = true ↔ head s = Some c.
Proof.
  destruct s as [|a s]; simpl; [split; discriminate|].
  rewrite andb_true_r, N.eqb_eq. split; congruence.
Qed.

Lemma contains_single c s : Str.contains [c] s = true ↔ c ∈ s.
Proof.
  induction s as [|a s IH].
  - simpl. split; [discriminate | by intros ?%elem_of_nil].
  - change (Str.contains [c] (a :: s))
      with (Str.startswith [c] (a :: s) || Str.contains [c] s).
    rewrite orb_true_iff, startswith_single, IH, elem_of_cons. simpl.
    split; (intros [?|?]; [left; congruence | by right]).
Qed.

Lemma split1_first c k v :
  c ∉ k → Str.split1 c (k ++ c :: v) = [k; v].
Proof.
  induction k as [|a k IH]; intros Hk; simpl.
  - by rewrite N.eqb_refl.
  - apply not_elem_of_cons in Hk as [Hne Hk].
    destruct (N.eqb_spec a c) as [-> | _]; [done|]. by rewrite IH.
Qed.

(** A string that holds [c] splits around its first occurrence. *)
Lemma elem_of_first c s :
  c ∈ s → ∃ k v, s = k ++ c :: v ∧ c ∉ k.
Proof.
  induction s as [|a s IH]; [by intros ?%elem_of_nil|].
  intros Hin. destruct (decide (a = c)) as [-> | Hne].
  - exists [], s. split; [done | apply not_elem_of_nil].
  - apply elem_of_cons in Hin as [?|Hin]; [congruence|].
    destruct (IH Hin) as (k & v & -> & Hk).
    exists (a :: k), v. split; [done|].
    apply not_elem_of_cons. split; [congruence | done].
Qed.

Lemma before_separator_first k v :
  58%N ∉ k → Spec.before_separator (k ++ 58%N :: v) = k.
Proof.
  unfold Spec.before_separator.
  induction k as [|a k IH]; intros Hk; simpl; [done|].
  apply not_elem_of_cons in Hk as [Hne Hk].
  destruct (N.eqb_spec a 58) as [?|_]; [done|]. simpl. by rewrite IH.
Qed.

Lemma after_separator_first k v :
  58%N ∉ k → Spec.after_separator (k ++ 58%N :: v) = v.
Proof.
  intros Hk. unfold Spec.after_separator.
  rewrite before_separator_first by done.
  change (S (length k)) with (length [58%N] + length k).
  rewrite Nat.add_comm, <- length_app.
  by rewrite (app_assoc k [58%N] v : k ++ 58%N :: v = (k ++ [58%N]) ++ v), drop_app_length.
Qed.

Lemma entry_first k v :
  58%N ∉ k →
  Spec.entry (k ++ 58%N :: v)
  = Some (Str.strip k, Spec.strip_quotes (Str.strip v)).
Proof.
  intros Hk. unfold Spec.entry.
  rewrite bool_decide_eq_true_2 by set_solver.
  by rewrite before_separator_first, after_separator_first.
Qed.

(** Stripping: characters of the class at either end do not count. *)
Lemma lstrip_by_all p (a : list N) s :
  Forall (λ c, p c = true) a → Str.lstrip_by p (a ++ s) = Str.lstrip_by p s.
Proof. induction 1 as [|c a Hc _ IH]; simpl; [done|]. by rewrite Hc. Qed.

Lemma lstrip_by_app p x (b : list N) :
  (Forall (λ c, p c = true) x ∧ Str.lstrip_by p x = [])
  ∨ Str.lstrip_by p (x ++ b) = Str.lstrip_by p x ++ b.
Proof.
  induction x as [|c x IH]; simpl; [by left|].
  destruct (p c) eqn:Hc; [|by right].
  destruct IH as [[Hall Hnil]|IH]; [left | by right].
  split; [by constructor | done].
Qed.

Lemma rstrip_by_all p y (b : list N) :
  Forall (λ c, p c = true) b → Str.rstrip_by p (y ++ b) = Str.rstrip_by p y.
Proof.
  intros Hb. unfold Str.rstrip_by. rewrite reverse_app.
  rewrite lstrip_by_all; [done|]. by apply Forall_reverse.
Qed.

Lemma strip_by_pad p (a : list N) x (b : list N) :
  Forall (λ c, p c = true) a → Forall (λ c, p c = true) b →
  Str.strip_by p (a ++ x ++ b) = Str.strip_by p x.
Proof.
  intros Ha Hb. unfold Str.strip_by.
  rewrite lstrip_by_all by done.
  destruct (lstrip_by_app p x b) as [[Hx Hnil] | ->].
  - rewrite lstrip_by_all by done. rewrite Hnil.
    rewrite <- (app_nil_r b) at 1. rewrite lstrip_by_all by done. done.
  - by apply rstrip_by_all.
Qed.

Lemma strip_by_keeps p a x b :
  p a = false → p b = false →
  Str.strip_by p (a :: x ++ [b]) = a :: x ++ [b].
Proof.
  intros Ha Hb. unfold Str.strip_by, Str.rstrip_by. simpl. rewrite Ha.
  rewrite reverse_cons, reverse_app. simpl. rewrite Hb.
  by rewrite reverse_cons, reverse_app, reverse_involutive.
Qed.

Lemma read_digits_uint (d : Decimal.uint) :
  Spec.read_digits (Str.uint_digits d) = Some d.
Proof. induction d as [|d IH|d IH|d IH|d IH|d IH|d IH|d IH|d IH|d IH|d IH];
  simpl; [done|..]; by rewrite IH. Qed.

(** The decimal form of a number reads back as that number. *)
Lemma read_nat_of_nat (n : nat) : Spec.read_nat (Str.of_nat n) = Some n.
Proof.
  unfold Spec.read_nat, Str.of_nat. rewrite read_digits_uint. simpl.
  by rewrite Unsigned.of_to.
Qed.

End StrFacts.

(** ** The header parser *)

Section Parser.

Implicit Types (text line first key : list N).
Implicit Types (lines rest pre post : list (list N)).

Lemma is_delimiter_decide line :
  Spec.is_delimiter line = bool_decide (Str.strip line = py "---").
Proof. done. Qed.

(** The loop with its [break] and its unpacking computes the header of
    the block of lines before the closing delimiter. *)
Lemma frontmatter_loop_block lines frontmatter :
  frontmatter_loop lines frontmatter
  = Some (foldl Spec.add_entry frontmatter (Spec.header_block lines)).
Proof.
  revert frontmatter. induction lines as [|line rest IH]; intros fm; [done|].
  unfold Spec.header_block in *. simpl. rewrite is_delimiter_decide.
  destruct (decide (Str.strip line = py "---")) as [Hd|Hd].
  - by rewrite bool_decide_eq_true_2.
  - rewrite bool_decide_eq_false_2 by done. simpl.
    destruct (Str.contains (py ":") line) eqn:Hc; simpl.
    + apply contains_single in Hc.
      destruct (elem_of_first _ _ Hc) as (k & v & -> & Hk).
      rewrite split1_first by done. rewrite IH. do 2 f_equal.
      unfold Spec.add_entry. by rewrite entry_first.
    + rewrite IH. do 2 f_equal. unfold Spec.add_entry, Spec.entry.
      rewrite bool_decide_eq_false_2; [done|].
      intros Hin. apply contains_single in Hin.
      change (py ":") with [58%N] in Hc. congruence.
Qed.

Lemma parse_frontmatter_no_header text :
  match Str.splitlines text with
  | [] => True
  | first :: _ => Str.strip first ≠ Spec.delimiter
  end →
  _parse_frontmatter text = Some ∅.
Proof.
  unfold _parse_frontmatter. destruct (Str.splitlines text) as [|first rest]; [done|].
  intros H. by rewrite decide_True.
Qed.

Lemma parse_frontmatter_header text first rest :
  Str.splitlines text = first :: rest →
  Str.strip first = Spec.delimiter →
  _parse_frontmatter text
  = Some (Spec.header_of_block (Spec.header_block rest)).
Proof.
  intros Hl Hd. unfold _parse_frontmatter. rewrite Hl.
  rewrite decide_False by (intros H; by apply H).
  apply frontmatter_loop_block.
Qed.

Lemma add_entry_no_separator (header : gmap (list N) (list N)) line :
  58%N ∉ line → Spec.add_entry header line = header.
Proof.
  intros Hno. unfold Spec.add_entry, Spec.entry.
  by rewrite bool_decide_eq_false_2.
Qed.

Lemma header_block_skip pre line post (header : gmap (list N) (list N)) :
  Str.strip line ≠ Spec.delimiter → 58%N ∉ line →
  foldl Spec.add_entry header (Spec.header_block (pre ++ line :: post))
  = foldl Spec.add_entry header (Spec.header_block (pre ++ post)).
Proof.
  intros Hd Hno. unfold Spec.header_block. revert header.
  induction pre as [|l pre IH]; intros header; simpl.
  - unfold Spec.is_delimiter at 1. rewrite bool_decide_eq_false_2 by done.
    simpl. by rewrite add_entry_no_separator.
  - destruct (Spec.is_delimiter l); [done|]. simpl. apply IH.
Qed.

(** Later lines that declare other keys leave a key's value as it is. *)
Lemma foldl_add_entry_lookup post (header : gmap (list N) (list N)) key :
  Forall (λ later, ∀ k' v', later = k' ++ 58%N :: v' → 58%N ∉ k' →
                            Str.strip k' ≠ key) post →
  foldl Spec.add_entry header post !! key = header !! key.
Proof.
  intros Hpost. revert header.
  induction Hpost as [|later post Hlater _ IH]; intros header; [done|].
  simpl. rewrite IH. unfold Spec.add_entry.
  destruct (decide (58%N ∈ later)) as [Hin|Hno].
  - destruct (elem_of_first _ _ Hin) as (k' & v' & -> & Hk').
    rewrite entry_first by done. apply lookup_insert_ne.
    by eapply Hlater.
  - unfold Spec.entry. by rewrite bool_decide_eq_false_2.
Qed.

Lemma parse_frontmatter_total text : is_Some (_parse_frontmatter text).
Proof.
  unfold _parse_frontmatter. destruct (Str.splitlines text) as [|first rest]; [by eexists|].
  destruct (decide _); [by eexists|].
  rewrite frontmatter_loop_block. by eexists.
Qed.

End Parser.

(** ** The report of the rule checker *)

Section Lint.

Implicit Types (text line e x : list N) (lines errors roles refs : list (list N)).
Implicit Types (fs : FS) (repo_root : Path.t) (kind : list N → bool).
Implicit Types (python : Interpreter).

(** The loop over the roles returns when every probe does, and then adds
    the errors of the absent roles, in order. *)
Lemma check_roles_Some fs repo_root roles errors result :
  check_roles fs (repo_root // py "common-roles") roles errors = Some result
  ↔ Forall (λ role, is_Some (path_exists fs (Report.role_file repo_root role)))
      roles
    ∧ result = errors ++ Report.role_errors fs repo_root roles.
Proof.
  unfold Report.role_errors, Report.role_file. revert errors.
  induction roles as [|role roles IH]; intros errors; simpl.
  - rewrite app_nil_r. split; [by intros [= <-] | by intros [_ ->]].
  - rewrite Forall_cons.
    destruct (path_exists fs _) as [[|]|] eqn:Hp; simpl.
    + rewrite IH, filter_cons_False by congruence. split.
      * intros [? ->]. by repeat split.
      * by intros [[_ ?] ->].
    + rewrite IH, filter_cons_True by congruence. rewrite fmap_cons, <- app_assoc.
      split.
      * intros [? ->]. by repeat split.
      * by intros [[_ ?] ->].
    + split; [done | by intros [[[? ?] _] _]].
Qed.

Lemma check_references_Some fs repo_root refs errors result :
  check_references fs repo_root refs errors = Some result
  ↔ Forall (λ ref, is_Some (path_exists fs (repo_root // ref))) refs
    ∧ result = errors ++ Report.reference_errors fs repo_root refs.
Proof.
  unfold Report.reference_errors. revert errors.
  induction refs as [|ref refs IH]; intros errors; simpl.
  - rewrite app_nil_r. split; [by intros [= <-] | by intros [_ ->]].
  - rewrite Forall_cons.
    destruct (path_exists fs _) as [[|]|] eqn:Hp; simpl.
    + rewrite IH, filter_cons_False by congruence. split.
      * intros [? ->]. by repeat split.
      * by intros [[_ ?] ->].
    + rewrite IH, filter_cons_True by congruence. rewrite fmap_cons, <- app_assoc.
      split.
      * intros [? ->]. by repeat split.
      * by intros [[_ ?] ->].
    + split; [done | by intros [[[? ?] _] _]].
Qed.

Lemma Forall_set_iter python (P : list N → Prop) refs :
  Forall P (set_iter python refs) ↔ Forall P refs.
Proof.
  rewrite !Forall_forall. by setoid_rewrite set_iter_elem.
Qed.

(** A manifest that has been read: the rule checker returns exactly when
    its probes do, and the report is then the concatenation of what the
    checks contribute, in the order of the checks. *)
Lemma manual_lint_Some python fs repo_root text header errors :
  path_exists fs (repo_root // py "SKILL.md") = Some true →
  path_read_text fs (repo_root // py "SKILL.md") = Some text →
  _parse_frontmatter text = Some header →
  _manual_lint python fs repo_root = Some errors
  ↔ Report.probes_return fs repo_root text
    ∧ errors
      = Report.length_errors (Str.splitlines text)
        ++ Report.deprecated_errors text
        ++ Report.name_errors header (Path.name repo_root)
        ++ Report.directory_errors fs repo_root
        ++ Report.role_errors fs repo_root
             (roles_loop (Str.splitlines text) false [])
        ++ Report.reference_errors fs repo_root
             (set_iter python (Spec.reference_tokens text))
        ++ Report.how_to_errors fs repo_root text.
Proof.
  intros Hex Hread Hparse. unfold _manual_lint, Report.probes_return.
  rewrite Hex. simpl. rewrite Hread. simpl. rewrite Hparse. simpl.
  unfold Report.directory_errors, Report.how_to_errors, Spec.reference_tokens.
  destruct (path_is_dir fs (repo_root // py "common-roles")) as [present|];
    simpl; [|split; [done | by intros [[[? ?] _] _]]].
  match goal with
  | |- context [check_roles _ _ _ ?base] =>
      assert (base
              = Report.length_errors (Str.splitlines text)
                ++ Report.deprecated_errors text
                ++ Report.name_errors header (Path.name repo_root)
                ++ (if present then [] else [Msg.missing_roles_dir])) as ->
  end.
  { unfold Report.length_errors, Report.deprecated_errors, Report.name_errors.
    destruct (decide (500 < _));
      destruct (Str.contains (py "utilities/common-roles") text);
      destruct (header !! py "name") as [skill_name|];
      try destruct (bool_decide (skill_name ≠ []) && _);
      destruct present; simpl; rewrite <- ?app_assoc; simpl;
      rewrite ?app_nil_r; reflexivity. }
  set (base := Report.length_errors _ ++ _).
  destruct (check_roles fs _ _ base) as [errors1|] eqn:Hroles; simpl.
  2: { split; [done|]. intros [(_ & Hall & _) _].
       assert (check_roles fs (repo_root // py "common-roles")
                 (roles_loop (Str.splitlines text) false []) base
               = Some (base ++ Report.role_errors fs repo_root
                                 (roles_loop (Str.splitlines text) false [])))
         as Hsome by by apply check_roles_Some.
       congruence. }
  apply check_roles_Some in Hroles as [Hall1 ->].
  destruct (check_references fs repo_root _ _) as [errors2|] eqn:Hrefs; simpl.
  2: { split; [done|]. intros [(_ & _ & Hall & _) _].
       apply (Forall_set_iter python) in Hall.
       eassert (check_references fs repo_root _ _ = Some _) as Hsome
         by by apply check_references_Some.
       rewrite Hsome in Hrefs. done. }
  apply check_references_Some in Hrefs as [Hall2 ->].
  apply Forall_set_iter in Hall2.
  assert (∀ l : list (list N),
            base ++ l
            = Report.length_errors (Str.splitlines text)
              ++ Report.deprecated_errors text
              ++ Report.name_errors header (Path.name repo_root)
              ++ (if present then [] else [Msg.missing_roles_dir]) ++ l) as Hbase.
  { intros l. unfold base. by rewrite <- !app_assoc. }
  destruct (Str.contains (py "delegate.how-to.md") text); simpl.
  - destruct (path_exists fs (repo_root // py "delegate.how-to.md"))
      as [how_to_present|]; simpl.
    + rewrite <- !app_assoc, !Hbase. clear Hbase. subst base. split.
      * intros [= <-]. split; [by repeat split; eauto|].
        by destruct present, how_to_present; rewrite ?app_nil_r.
      * intros [_ ->]. by destruct present, how_to_present; rewrite ?app_nil_r.
    + split; [done|]. intros [(_ & _ & _ & Hh) _].
      by destruct (Hh eq_refl).
  - rewrite <- !app_assoc, !Hbase, app_nil_r. clear Hbase. subst base. split.
    + intros [= <-]. split; [by repeat split; eauto|]. by destruct present.
    + intros [_ ->]. by destruct present.
Qed.

Lemma select_app kind errors errors' :
  Report.select kind (errors ++ errors')
  = Report.select kind errors ++ Report.select kind errors'.
Proof. apply filter_app. Qed.

Lemma select_none kind errors :
  (∀ e, e ∈ errors → kind e = false) → Report.select kind errors = [].
Proof.
  intros Hk. induction errors as [|e errors IH]; [done|].
  unfold Report.select in *.
  rewrite filter_cons_False by (rewrite Hk; [done | apply elem_of_cons; by left]).
  apply IH. intros e' He'. apply Hk, elem_of_cons. by right.
Qed.

Lemma select_all kind errors :
  (∀ e, e ∈ errors → kind e = true) → Report.select kind errors = errors.
Proof.
  intros Hk. induction errors as [|e errors IH]; [done|].
  unfold Report.select in *.
  rewrite filter_cons_True by (apply Hk, elem_of_cons; by left).
  f_equal. apply IH. intros e' He'. apply Hk, elem_of_cons. by right.
Qed.

(** Which message a check contributes. *)
Lemma elem_of_length_errors e lines :
  e ∈ Report.length_errors lines → e = Msg.too_long (length lines).
Proof.
  unfold Report.length_errors. destruct (decide _).
  - by intros ?%list_elem_of_singleton.
  - by intros ?%elem_of_nil.
Qed.

Lemma elem_of_deprecated_errors e text :
  e ∈ Report.deprecated_errors text → e = Msg.deprecated_path.
Proof.
  unfold Report.deprecated_errors. destruct (Str.contains _ text).
  - by intros ?%list_elem_of_singleton.
  - by intros ?%elem_of_nil.
Qed.

Lemma elem_of_name_errors e (header : gmap (list N) (list N)) folder :
  e ∈ Report.name_errors header folder →
  ∃ skill_name, e = Msg.name_mismatch skill_name folder.
Proof.
  unfold Report.name_errors.
  destruct (header !! py "name") as [skill_name|]; [|by intros ?%elem_of_nil].
  destruct (_ && _); [|by intros ?%elem_of_nil].
  intros ->%list_elem_of_singleton. by exists skill_name.
Qed.

Lemma elem_of_directory_errors e fs repo_root :
  e ∈ Report.directory_errors fs repo_root → e = Msg.missing_roles_dir.
Proof.
  unfold Report.directory_errors.
  destruct (path_is_dir fs _) as [[|]|]; try by intros ?%elem_of_nil.
  by intros ?%list_elem_of_singleton.
Qed.

Lemma elem_of_role_errors e fs repo_root roles :
  e ∈ Report.role_errors fs repo_root roles →
  ∃ role, e = Msg.missing_role role.
Proof. intros (role & -> & _)%list_elem_of_fmap. by exists role. Qed.

Lemma elem_of_reference_errors e fs repo_root refs :
  e ∈ Report.reference_errors fs repo_root refs →
  ∃ ref, e = Msg.missing_reference ref.
Proof. intros (ref & -> & _)%list_elem_of_fmap. by exists ref. Qed.

Lemma elem_of_how_to_errors e fs repo_root text :
  e ∈ Report.how_to_errors fs repo_root text → e = Msg.missing_how_to.
Proof.
  unfold Report.how_to_errors.
  destruct (Str.contains _ text); [|by intros ?%elem_of_nil].
  destruct (path_exists fs _) as [[|]|]; try by intros ?%elem_of_nil.
  by intros ?%list_elem_of_singleton.
Qed.

End Lint.

(** The kind of every message of a part of the report is decided by
    evaluation. *)
Ltac part_kind :=
  let e := fresh "e" in
  let He := fresh "He" in
  intros e He;
  first
    [ apply elem_of_length_errors in He
    | apply elem_of_deprecated_errors in He
    | apply elem_of_name_errors in He as [? He]
    | apply elem_of_directory_errors in He
    | apply elem_of_role_errors in He as [? He]
    | apply elem_of_reference_errors in He as [? He]
    | apply elem_of_how_to_errors in He ];
  rewrite He; reflexivity.

Section Kinds.

Implicit Types (text e : list N) (errors : list (list N)).
Implicit Types (fs : FS) (repo_root : Path.t) (python : Interpreter).

(** Each kind of error of a returned report comes from its own check. *)
Lemma manual_lint_kinds python fs repo_root text errors :
  path_exists fs (repo_root // py "SKILL.md") = Some true →
  path_read_text fs (repo_root // py "SKILL.md") = Some text →
  _manual_lint python fs repo_root = Some errors →
  ∃ header,
    _parse_frontmatter text = Some header
    ∧ Report.probes_return fs repo_root text
    ∧ Report.select Report.is_too_long errors
      = Report.length_errors (Str.splitlines text)
    ∧ Report.select Fixed.is_deprecated_path errors
      = Report.deprecated_errors text
    ∧ Report.select Report.is_name_mismatch errors
      = Report.name_errors header (Path.name repo_root)
    ∧ Report.select Fixed.is_missing_roles_dir errors
      = Report.directory_errors fs repo_root
    ∧ Report.select Report.is_missing_role errors
      = Report.role_errors fs repo_root
          (roles_loop (Str.splitlines text) false [])
    ∧ Report.select Report.is_missing_reference errors
      = Report.reference_errors fs repo_root
          (set_iter python (Spec.reference_tokens text))
    ∧ Report.select Fixed.is_missing_how_to errors
      = Report.how_to_errors fs repo_root text.
Proof.
  intros Hex Hread Hlint.
  destruct (parse_frontmatter_total text) as [header Hh].
  pose proof (proj1 (manual_lint_Some python fs repo_root text header errors
                       Hex Hread Hh) Hlint) as [Hprobes Herrors].
  exists header. split; [done|]. split; [done|].
  rewrite Herrors, !select_app.
  repeat split.
  - rewrite (select_all _ (Report.length_errors _)) by part_kind.
    rewrite !select_none by part_kind. simpl. by rewrite ?app_nil_r.
  - rewrite (select_all _ (Report.deprecated_errors _)) by part_kind.
    rewrite !select_none by part_kind. simpl. by rewrite ?app_nil_r.
  - rewrite (select_all _ (Report.name_errors _ _)) by part_kind.
    rewrite !select_none by part_kind. simpl. by rewrite ?app_nil_r.
  - rewrite (select_all _ (Report.directory_errors _ _)) by part_kind.
    rewrite !select_none by part_kind. simpl. by rewrite ?app_nil_r.
  - rewrite (select_all _ (Report.role_errors _ _ _)) by part_kind.
    rewrite !select_none by part_kind. simpl. by rewrite ?app_nil_r.
  - rewrite (select_all _ (Report.reference_errors _ _ _)) by part_kind.
    rewrite !select_none by part_kind. simpl. by rewrite ?app_nil_r.
  - rewrite (select_all _ (Report.how_to_errors _ _ _)) by part_kind.
    rewrite !select_none by part_kind. simpl. by rewrite ?app_nil_r.
Qed.

End Kinds.

(** ** Counting errors *)

Section Counting.

Implicit Types (x e role ref : list N) (l errors roles : list (list N)).
Implicit Types (fs : FS) (repo_root : Path.t) (kind : list N → bool).
Implicit Types (python : Interpreter) (refs : list (list N)).

Lemma count_cons x e l :
  Spec.count x (e :: l)
  = (if decide (e = x) then 1 else 0) + Spec.count x l.
Proof.
  unfold Spec.count. destruct (decide (e = x)) as [He|He].
  - by rewrite filter_cons_True.
  - by rewrite filter_cons_False.
Qed.

Lemma count_select kind x errors :
  kind x = true →
  Spec.count x (Report.select kind errors) = Spec.count x errors.
Proof.
  intros Hx. induction errors as [|e errors IH]; [done|].
  unfold Report.select in *. rewrite count_cons.
  destruct (kind e) eqn:He.
  - rewrite filter_cons_True by done. by rewrite count_cons, IH.
  - rewrite filter_cons_False by congruence.
    rewrite IH, decide_False; [done | congruence].
Qed.

Lemma count_fmap (msg : list N → list N) `{!Inj (=) (=) msg} x l :
  Spec.count (msg x) (msg <$> l) = Spec.count x l.
Proof.
  induction l as [|e l IH]; [done|].
  rewrite fmap_cons, !count_cons, IH. f_equal.
  destruct (decide (e = x)) as [-> | He].
  - by rewrite decide_True.
  - rewrite decide_False; [done|]. by intros ?%(inj msg).
Qed.

Lemma count_filter (P : list N → Prop) `{∀ e, Decision (P e)} x l :
  Spec.count x (filter P l) = if decide (P x) then Spec.count x l else 0.
Proof.
  induction l as [|e l IH]; [by destruct (decide _)|].
  rewrite count_cons. destruct (decide (P e)) as [He|He].
  - rewrite filter_cons_True by done. rewrite count_cons, IH.
    by destruct (decide (P x)); destruct (decide (e = x)); subst.
  - rewrite filter_cons_False by done. rewrite IH.
    destruct (decide (P x)); [|done].
    rewrite decide_False; [done | congruence].
Qed.

Lemma count_NoDup x l :
  NoDup l → Spec.count x l = if decide (x ∈ l) then 1 else 0.
Proof.
  induction 1 as [|e l Hnotin _ IH]; [done|].
  rewrite count_cons, IH. destruct (decide (e = x)) as [-> | He].
  - rewrite (decide_True (P := x ∈ x :: l)) by (apply elem_of_cons; by left).
    by rewrite decide_False.
  - destruct (decide (x ∈ l)).
    + rewrite decide_True by (apply elem_of_cons; by right). done.
    + rewrite decide_False; [done|].
      intros [?|?]%elem_of_cons; [congruence | done].
Qed.

#[local] Instance missing_role_inj : Inj (=) (=) Msg.missing_role.
Proof.
  intros r r' Heq. unfold Msg.missing_role in Heq.
  apply app_inv_head in Heq. by apply app_inv_tail in Heq.
Qed.

#[local] Instance missing_reference_inj : Inj (=) (=) Msg.missing_reference.
Proof. intros r r' Heq. by apply app_inv_head in Heq. Qed.

Lemma count_role_errors fs repo_root role roles :
  Spec.count (Msg.missing_role role) (Report.role_errors fs repo_root roles)
  = if decide (path_exists fs (Report.role_file repo_root role) = Some false)
    then Spec.count role roles else 0.
Proof.
  unfold Report.role_errors. rewrite count_fmap by apply _.
  by rewrite count_filter.
Qed.

Lemma count_reference_errors python fs repo_root ref refs :
  Spec.count (Msg.missing_reference ref)
    (Report.reference_errors fs repo_root (set_iter python refs))
  = if decide (ref ∈ refs ∧ path_exists fs (repo_root // ref) = Some false)
    then 1 else 0.
Proof.
  unfold Report.reference_errors. rewrite count_fmap by apply _.
  rewrite count_filter, count_NoDup by apply set_iter_NoDup.
  destruct (decide (path_exists fs _ = Some false)) as [Hp|Hp].
  - destruct (decide (ref ∈ set_iter python refs)) as [Hin|Hin];
      rewrite set_iter_elem in Hin.
    + by rewrite decide_True.
    + rewrite decide_False; [done|]. by intros [? _].
  - rewrite decide_False; [done|]. by intros [_ ?].
Qed.

End Counting.

(** ** The roles section *)

Section Roles.

Implicit Types (line : list N) (lines roles : list (list N)).

Lemma tokens_of_cons line lines :
  Spec.tokens_of (line :: lines)
  = Re.findall Re.backticked line ++ Spec.tokens_of lines.
Proof. done. Qed.

Lemma is_roles_heading_decide line :
  Spec.is_roles_heading line
  = bool_decide (Str.strip line = py "### Available Roles").
Proof. done. Qed.

Lemma roles_loop_cons line lines (in_roles_table : bool) roles :
  roles_loop (line :: lines) in_roles_table roles
  = if decide (Str.strip line = py "### Available Roles")
    then roles_loop lines true roles
    else if in_roles_table && Str.startswith (py "### ") line then roles
    else if in_roles_table
    then roles_loop lines in_roles_table
           (roles ++ Re.findall Re.backticked line)
    else roles_loop lines in_roles_table roles.
Proof. done. Qed.

(** Inside the section the loop reads on to the next other heading. *)
Lemma roles_loop_inside lines roles :
  roles_loop lines true roles
  = roles ++ Spec.tokens_of
               (filter (λ line, Spec.is_roles_heading line = false)
                  (Spec.until Spec.is_other_heading lines)).
Proof.
  revert roles. induction lines as [|line lines IH]; intros roles.
  - simpl. by rewrite app_nil_r.
  - rewrite roles_loop_cons. cbn [Spec.until].
    unfold Spec.is_other_heading at 1.
    pose proof (is_roles_heading_decide line) as Hrh.
    destruct (decide (Str.strip line = py "### Available Roles")) as [Hh|Hh].
    + rewrite bool_decide_eq_true_2 in Hrh by done.
      rewrite Hrh, andb_false_r.
      rewrite filter_cons_False; [apply IH | by rewrite Hrh].
    + rewrite bool_decide_eq_false_2 in Hrh by done.
      rewrite Hrh, andb_true_r.
      change (Str.startswith Spec.heading_marker line)
        with (Str.startswith (py "### ") line).
      destruct (Str.startswith (py "### ") line); cbn [andb].
      * by rewrite app_nil_r.
      * rewrite filter_cons_True by done.
        by rewrite IH, tokens_of_cons, app_assoc.
Qed.

(** The loop collects the tokens of the section, in order. *)
Lemma roles_loop_section lines :
  roles_loop lines false [] = Spec.tokens_of (Spec.roles_section lines).
Proof.
  unfold Spec.roles_section.
  induction lines as [|line lines IH]; [done|].
  rewrite roles_loop_cons. cbn [Spec.after andb].
  rewrite is_roles_heading_decide.
  destruct (decide (Str.strip line = py "### Available Roles")) as [Hh|Hh].
  - rewrite bool_decide_eq_true_2 by done. apply roles_loop_inside.
  - rewrite bool_decide_eq_false_2 by done. apply IH.
Qed.

End Roles.

(** ** The exit status *)


(** ** The manifest must exist *)

(** C2: when [SKILL.md] does not exist under the document root, the report
    is the missing-manifest error alone, whatever else the file system
    holds. *)
Theorem missing_manifest_sole_error
    (python : Interpreter) (fs : FS) (repo_root : Path.t) :
  path_exists fs (repo_root // py "SKILL.md") = Some false →
  _manual_lint python fs repo_root = Some [Msg.missing_manifest].
Proof. intros Hex. unfold _manual_lint. by rewrite Hex. Qed.

Lemma missing_manifest_sole_error_witness :
  let fs := Fixture.disk [(Fixture.root // py "delegate.how-to.md", [])]
              [Fixture.root] in
  path_exists fs (Fixture.root // py "SKILL.md") = Some false
  ∧ _manual_lint Fixture.insertion_order fs Fixture.root
    = Some [py "SKILL.md is missing."].
Proof.
  split; [reflexivity|].
  apply (missing_manifest_sole_error Fixture.insertion_order
           (Fixture.disk [(Fixture.root // py "delegate.how-to.md", [])]
              [Fixture.root]) Fixture.root).
  reflexivity.
Defined.

(** ** The header parser: totality *)

(** C9: the header parser returns a mapping for every input string, the
    empty input included, and a header line without the separator (and
    which is not the closing delimiter) changes nothing in the result. *)
Theorem parse_frontmatter_never_fails :
  (∀ text : list N, ∃ header, _parse_frontmatter text = Some header)
  ∧ _parse_frontmatter [] = Some ∅
  ∧ (∀ (text text' first line : list N) (pre post : list (list N)),
       Str.splitlines text = first :: pre ++ line :: post →
       Str.splitlines text' = first :: pre ++ post →
       58%N ∉ line →
       Str.strip line ≠ Spec.delimiter →
       _parse_frontmatter text = _parse_frontmatter text').
Proof.
  split; [intros text; apply parse_frontmatter_total|].
  split; [done|].
  intros text text' first line pre post Hl Hl' Hno Hd.
  destruct (decide (Str.strip first = Spec.delimiter)) as [Hf|Hf].
  - rewrite (parse_frontmatter_header _ _ _ Hl Hf),
      (parse_frontmatter_header _ _ _ Hl' Hf).
    f_equal. by apply header_block_skip.
  - rewrite !parse_frontmatter_no_header; [done| |]; by rewrite ?Hl, ?Hl'.
Qed.

Lemma parse_frontmatter_never_fails_witness :
  let text := Fixture.lines [py "---"; py "name: x"; py "just words"; py "version: 2"] in
  let text' := Fixture.lines [py "---"; py "name: x"; py "version: 2"] in
  _parse_frontmatter text = _parse_frontmatter text'
  ∧ _parse_frontmatter text'
    = Some (<[py "version" := py "2"]> (<[py "name" := py "x"]> ∅)).
Proof.
  split; [|vm_compute; reflexivity].
  apply (proj2 (proj2 parse_frontmatter_never_fails)
           (Fixture.lines [py "---"; py "name: x"; py "just words"; py "version: 2"])
           (Fixture.lines [py "---"; py "name: x"; py "version: 2"])
           (py "---") (py "just words") [py "name: x"] [py "version: 2"]).
  - reflexivity.
  - reflexivity.
  - vm_compute. intros H. by repeat (apply elem_of_cons in H as [H|H]; [discriminate H|]); apply elem_of_nil in H.
  - discriminate.
Defined.

(** ** The header parser: where the header starts and ends *)

(** C3, as stated, fails: the parser looks at the first line of the text,
    empty or not, and trims it before comparing. After an empty first line
    a delimiter opens no header; an indented delimiter on the first line
    opens one. *)
Lemma first_nonempty_line_not_consulted :
  let hidden := Fixture.lines [[]; py "---"; py "name: x"; py "---"] in
  let indented := Fixture.lines [py "  ---"; py "name: x"; py "---"] in
  (Spec.first_nonempty_line hidden = Some Spec.delimiter
   ∧ _parse_frontmatter hidden = Some ∅)
  ∧ (Spec.first_nonempty_line indented = Some (py "  ---")
     ∧ py "  ---" ≠ Spec.delimiter
     ∧ _parse_frontmatter indented = Some {[ py "name" := py "x" ]}).
Proof. repeat split; try (vm_compute; reflexivity). discriminate. Qed.

(** C3, amended: a text with no line, or whose first line trimmed of white
    space is not the delimiter, has the empty header; a text whose first
    line trimmed is the delimiter has the header declared by the lines
    that follow it, up to the next line that trimmed is the delimiter or
    to the end of the input. *)
Theorem parse_frontmatter_first_line (text : list N) :
  (match Str.splitlines text with
   | [] => True
   | first :: _ => Str.strip first ≠ Spec.delimiter
   end → _parse_frontmatter text = Some ∅)
  ∧ (∀ first rest,
       Str.splitlines text = first :: rest →
       Str.strip first = Spec.delimiter →
       _parse_frontmatter text
       = Some (Spec.header_of_block (Spec.header_block rest))).
Proof.
  split.
  - apply parse_frontmatter_no_header.
  - apply parse_frontmatter_header.
Qed.

Lemma parse_frontmatter_first_line_witness :
  _parse_frontmatter (Fixture.lines [py "# Title"; py "---"; py "name: x"])
  = Some ∅
  ∧ _parse_frontmatter
      (Fixture.lines [py " --- "; py "name: x"; py "---"; py "later: y"])
    = Some (Spec.header_of_block [py "name: x"]).
Proof.
  split.
  - apply (proj1 (parse_frontmatter_first_line
                    (Fixture.lines [py "# Title"; py "---"; py "name: x"]))).
    vm_compute. discriminate.
  - apply (proj2 (parse_frontmatter_first_line
                    (Fixture.lines [py " --- "; py "name: x"; py "---"; py "later: y"]))
             (py " --- ") [py "name: x"; py "---"; py "later: y"]).
    + reflexivity.
    + reflexivity.
Defined.

(** ** The header parser: one line of the header *)

(** C4, as stated, fails: the key keeps its quote characters, and the value
    loses every double quote and then every single quote at its ends, so
    two layers of quoting are removed where they are present. *)
Lemma quotes_not_one_layer :
  let doubled := Str.DQUOTE ++ Str.DQUOTE ++ py "foo" ++ Str.DQUOTE ++ Str.DQUOTE in
  let nested := Str.DQUOTE ++ py "'foo'" ++ Str.DQUOTE in
  let quoted_key := Str.DQUOTE ++ py "name" ++ Str.DQUOTE in
  _parse_frontmatter (Fixture.lines [py "---"; py "name: " ++ doubled; py "---"])
  = Some {[ py "name" := py "foo" ]}
  ∧ _parse_frontmatter (Fixture.lines [py "---"; py "name: " ++ nested; py "---"])
    = Some {[ py "name" := py "foo" ]}
  ∧ _parse_frontmatter (Fixture.lines [py "---"; quoted_key ++ py ": foo"; py "---"])
    = Some {[ quoted_key := py "foo" ]}.
Proof. repeat split; vm_compute; reflexivity. Qed.

(** C4, amended: a header line with the separator is split at its first
    occurrence only; the key is the part before it trimmed of white space,
    quote characters kept; the value is the part after it trimmed of white
    space, then of every double quote and then of every single quote at
    its ends; unless a later line of the block declares the same key, the
    header maps the key to that value. A value written in double or in
    single quotes around a text with no quote at its ends parses to that
    text. *)
Theorem header_line_entry :
  (∀ (text first line k v : list N) (rest pre post : list (list N)),
     Str.splitlines text = first :: rest →
     Str.strip first = Spec.delimiter →
     Spec.header_block rest = pre ++ line :: post →
     line = k ++ 58%N :: v →
     58%N ∉ k →
     Forall (λ later, ∀ k' v', later = k' ++ 58%N :: v' → 58%N ∉ k' →
                               Str.strip k' ≠ Str.strip k) post →
     ∃ header,
       _parse_frontmatter text = Some header
       ∧ header !! Str.strip k
         = Some (Str.strip_chars (py "'")
                   (Str.strip_chars Str.DQUOTE (Str.strip v))))
  ∧ (∀ x : list N,
       Str.strip_chars Str.DQUOTE x = x →
       Str.strip_chars (py "'") x = x →
       Spec.strip_quotes (Str.DQUOTE ++ x ++ Str.DQUOTE) = x
       ∧ Spec.strip_quotes (py "'" ++ x ++ py "'") = x).
Proof.
  split.
  - intros text first line k v rest pre post Hl Hf Hblock -> Hk Hpost.
    eexists. split; [by eapply parse_frontmatter_header|].
    rewrite Hblock. unfold Spec.header_of_block.
    rewrite foldl_app. simpl. rewrite foldl_add_entry_lookup by done.
    unfold Spec.add_entry. rewrite entry_first by done.
    by rewrite lookup_insert_eq.
  - intros x Hdq Hsq. unfold Spec.strip_quotes, Str.strip_chars in *. split.
    + rewrite strip_by_pad; [by rewrite Hdq| |]; by repeat constructor.
    + change (py "'" ++ x ++ py "'") with (39%N :: x ++ [39%N]).
      rewrite strip_by_keeps by done.
      change (39%N :: x ++ [39%N]) with ([39%N] ++ x ++ [39%N]).
      rewrite strip_by_pad; [done| |]; by repeat constructor.
Qed.

Lemma header_line_entry_witness :
  (∃ header,
     _parse_frontmatter
       (Fixture.lines [py "---"; py "name:  'a:b' "; py "other: 1"; py "---"])
     = Some header
     ∧ header !! py "name" = Some (py "a:b"))
  ∧ Spec.strip_quotes (Str.DQUOTE ++ py "foo" ++ Str.DQUOTE) = py "foo"
  ∧ Spec.strip_quotes (py "'foo'") = py "foo".
Proof.
  split.
  - apply (proj1 header_line_entry
             (Fixture.lines [py "---"; py "name:  'a:b' "; py "other: 1"; py "---"])
             (py "---") (py "name:  'a:b' ") (py "name") (py "  'a:b' ")
             [py "name:  'a:b' "; py "other: 1"; py "---"]
             [] [py "other: 1"]).
    + reflexivity.
    + reflexivity.
    + reflexivity.
    + reflexivity.
    + compute_done.
    + constructor; [|constructor].
      intros k' v' Heq Hk'.
      change (py "other: 1") with (py "other" ++ 58%N :: py " 1") in Heq.
      destruct k' as [|c1 [|c2 [|c3 [|c4 [|c5 [|c6 k']]]]]];
        simplify_eq/=; try discriminate;
        exfalso; apply Hk'; set_solver.
  - apply (proj2 header_line_entry (py "foo")); reflexivity.
Defined.

(** ** The length bound *)

(** C6, as stated, fails: an existing manifest need not get a report. This
    one has 501 lines and lists a role whose file name is too long for the
    file system; the probe of the role's file raises, so the run ends
    without a report and no length error is reported. *)
Lemma long_manifest_without_report :
  let text := Fixture.lines
                ([py "### Available Roles";
                  py "- `" ++ Fixture.long_role ++ py "`"]
                 ++ replicate 499 (py "line")) in
  let fs := Fixture.skill text [] in
  path_exists fs (Fixture.root // py "SKILL.md") = Some true
  ∧ path_read_text fs (Fixture.root // py "SKILL.md") = Some text
  ∧ length (Str.splitlines text) = 501
  ∧ roles_loop (Str.splitlines text) false [] = [Fixture.long_role]
  ∧ path_exists fs
      (Fixture.root // py "common-roles" // (Fixture.long_role ++ py ".md"))
    = None
  ∧ _manual_lint Fixture.insertion_order fs Fixture.root = None.
Proof. repeat split; vm_compute; reflexivity. Qed.

(** C6, amended: when the rule checker returns a report for an existing
    manifest, the report has a length error exactly when the manifest has
    more than 500 lines, and the error cites the number of lines; with 500
    lines there is none, with 501 the error says 501. *)
Theorem length_bound_error
    (python : Interpreter) (fs : FS) (repo_root : Path.t)
    (text : list N) (errors : list (list N)) :
  path_exists fs (repo_root // py "SKILL.md") = Some true →
  path_read_text fs (repo_root // py "SKILL.md") = Some text →
  _manual_lint python fs repo_root = Some errors →
  let n := length (Str.splitlines text) in
  Report.select Report.is_too_long errors
  = (if decide (500 < n)
     then [py "SKILL.md should be 500 lines or fewer (found "
             ++ Str.of_nat n ++ py ")."]
     else [])
  ∧ Spec.read_nat (Str.of_nat n) = Some n
  ∧ (n = 500 → Report.select Report.is_too_long errors = [])
  ∧ (n = 501 →
     Report.select Report.is_too_long errors
     = [py "SKILL.md should be 500 lines or fewer (found 501)."]).
Proof.
  intros Hex Hread Hlint.
  destruct (manual_lint_kinds python fs repo_root text errors Hex Hread Hlint)
    as (header & _ & _ & Hlen & _).
  simpl. rewrite Hlen. unfold Report.length_errors.
  split; [done|]. split; [apply read_nat_of_nat|].
  split; intros ->; reflexivity.
Qed.

Lemma length_bound_error_witness :
  let text := Fixture.lines (replicate 501 (py "line")) in
  let fs := Fixture.skill text [] in
  length (Str.splitlines text) = 501
  ∧ _manual_lint Fixture.insertion_order fs Fixture.root
    = Some [py "SKILL.md should be 500 lines or fewer (found 501)."]
  ∧ Report.select Report.is_too_long
      [py "SKILL.md should be 500 lines or fewer (found 501)."]
    = [py "SKILL.md should be 500 lines or fewer (found 501)."].
Proof.
  split; [vm_compute; reflexivity|]. split; [vm_compute; reflexivity|].
  apply (length_bound_error Fixture.insertion_order
           (Fixture.skill (Fixture.lines (replicate 501 (py "line"))) [])
           Fixture.root (Fixture.lines (replicate 501 (py "line")))
           [py "SKILL.md should be 500 lines or fewer (found 501)."]).
  - vm_compute; reflexivity.
  - vm_compute; reflexivity.
  - vm_compute; reflexivity.
  - vm_compute; reflexivity.
Defined.

(** ** The declared name *)

(** C5, as stated, fails: a header that declares an empty name, which
    differs from the folder name, brings no name-mismatch error. *)
Lemma empty_name_not_reported :
  let text := Fixture.lines [py "---"; py "name:"; py "---"] in
  _parse_frontmatter text = Some {[ py "name" := [] ]}
  ∧ Path.name Fixture.root = py "skill"
  ∧ _manual_lint Fixture.insertion_order (Fixture.skill text []) Fixture.root
    = Some [].
Proof. repeat split; vm_compute; reflexivity. Qed.

(** C5, amended: when the rule checker returns a report for a manifest, the
    report has exactly one name-mismatch error if the header declares a
    name that is not empty and differs from the name of the document root's
    directory; it has none if the declared name is that name or is empty,
    if the header declares no name, and if the manifest has no header. *)
Theorem name_mismatch_reported
    (python : Interpreter) (fs : FS) (repo_root : Path.t)
    (text : list N) (errors : list (list N)) :
  path_exists fs (repo_root // py "SKILL.md") = Some true →
  path_read_text fs (repo_root // py "SKILL.md") = Some text →
  _manual_lint python fs repo_root = Some errors →
  ∃ header,
    _parse_frontmatter text = Some header
    ∧ Report.select Report.is_name_mismatch errors
      = match header !! py "name" with
        | Some skill_name =>
            if decide (skill_name ≠ [] ∧ skill_name ≠ Path.name repo_root)
            then [py "Frontmatter name '" ++ skill_name
                    ++ py "' must match folder name '"
                    ++ Path.name repo_root ++ py "'."]
            else []
        | None => []
        end
    ∧ (match Str.splitlines text with
       | [] => True
       | first :: _ => Str.strip first ≠ Spec.delimiter
       end → Report.select Report.is_name_mismatch errors = []).
Proof.
  intros Hex Hread Hlint.
  destruct (manual_lint_kinds python fs repo_root text errors Hex Hread Hlint)
    as (header & Hparse & _ & _ & _ & Hname & _).
  exists header. split; [done|].
  rewrite Hname. unfold Report.name_errors. split.
  - destruct (header !! py "name") as [skill_name|]; [|done].
    destruct (decide (skill_name ≠ [] ∧ skill_name ≠ Path.name repo_root))
      as [[Hne Hdiff]|Hnot].
    + by rewrite !bool_decide_eq_true_2.
    + destruct (decide (skill_name ≠ [])) as [Hne|Hne].
      * rewrite (bool_decide_eq_false_2 (skill_name ≠ Path.name repo_root));
          [by rewrite andb_false_r | naive_solver].
      * by rewrite bool_decide_eq_false_2.
  - intros Hno. rewrite (parse_frontmatter_no_header _ Hno) in Hparse.
    injection Hparse as <-. by rewrite lookup_empty.
Qed.

Lemma name_mismatch_reported_witness :
  let text := Fixture.lines [py "---"; py "name: 'other'"; py "---"] in
  _manual_lint Fixture.insertion_order (Fixture.skill text []) Fixture.root
  = Some [py "Frontmatter name 'other' must match folder name 'skill'."]
  ∧ ∃ header,
      _parse_frontmatter text = Some header
      ∧ header !! py "name" = Some (py "other")
      ∧ Report.select Report.is_name_mismatch
          [py "Frontmatter name 'other' must match folder name 'skill'."]
        = [py "Frontmatter name 'other' must match folder name 'skill'."].
Proof.
  split; [vm_compute; reflexivity|].
  destruct (name_mismatch_reported Fixture.insertion_order
              (Fixture.skill (Fixture.lines [py "---"; py "name: 'other'"; py "---"]) [])
              Fixture.root (Fixture.lines [py "---"; py "name: 'other'"; py "---"])
              [py "Frontmatter name 'other' must match folder name 'skill'."])
    as (header & Hparse & Hsel & _).
  - vm_compute; reflexivity.
  - vm_compute; reflexivity.
  - vm_compute; reflexivity.
  - exists header. split; [exact Hparse|].
    assert (header = {[ py "name" := py "other" ]}) as ->.
    { vm_compute in Hparse. injection Hparse as <-. vm_compute. reflexivity. }
    split; [vm_compute; reflexivity|]. rewrite Hsel. vm_compute. reflexivity.
Defined.

(** ** The listed roles *)

(** C8, as stated, fails: a line that is the designated heading again does
    not end the section. Between the heading and the next heading of its
    level only [alpha] is listed, whose file exists, yet the report has a
    missing-role error for [beta], listed after the repeated heading. *)
Lemma repeated_roles_heading_continues :
  let text := Fixture.lines [py "### Available Roles"; py "- `alpha`";
                             py "### Available Roles"; py "- `beta`";
                             py "### Usage"; py "- `gamma`"] in
  let fs := Fixture.skill text [py "common-roles/alpha.md"] in
  Spec.tokens_of (Spec.roles_section_as_specified (Str.splitlines text))
  = [py "alpha"]
  ∧ path_exists fs (Report.role_file Fixture.root (py "alpha")) = Some true
  ∧ _manual_lint Fixture.insertion_order fs Fixture.root
    = Some [py "Role listed in SKILL.md missing: common-roles/beta.md"].
Proof. repeat split; vm_compute; reflexivity. Qed.

(** C8, amended: when the rule checker returns a report for an existing
    manifest, the role check has collected exactly the backtick-quoted
    tokens on the lines after the first designated heading up to the next
    line that starts with the heading marker of that level and is not the
    designated heading again (or to the end of the input), a repeated
    designated heading contributing nothing; the probe of every collected
    role's file has returned, and the report has one missing-role error for
    each collected role whose file is absent from the companion directory,
    in the order collected, and none for a role whose file exists. *)
Theorem role_check_section
    (python : Interpreter) (fs : FS) (repo_root : Path.t)
    (text : list N) (errors : list (list N)) :
  path_exists fs (repo_root // py "SKILL.md") = Some true →
  path_read_text fs (repo_root // py "SKILL.md") = Some text →
  _manual_lint python fs repo_root = Some errors →
  roles_loop (Str.splitlines text) false []
  = Spec.tokens_of (Spec.roles_section (Str.splitlines text))
  ∧ Forall (λ role,
              is_Some (path_exists fs
                         (repo_root // py "common-roles" // (role ++ py ".md"))))
      (Spec.tokens_of (Spec.roles_section (Str.splitlines text)))
  ∧ Report.select Report.is_missing_role errors
    = (λ role, py "Role listed in SKILL.md missing: common-roles/"
                 ++ role ++ py ".md")
        <$> filter (λ role,
                      path_exists fs
                        (repo_root // py "common-roles" // (role ++ py ".md"))
                      = Some false)
              (Spec.tokens_of (Spec.roles_section (Str.splitlines text))).
Proof.
  intros Hex Hread Hlint.
  destruct (manual_lint_kinds python fs repo_root text errors Hex Hread Hlint)
    as (header & _ & (_ & Hprobes & _) & _ & _ & _ & _ & Hroles & _).
  split; [apply roles_loop_section|].
  rewrite roles_loop_section in Hprobes, Hroles. by split.
Qed.

Lemma role_check_section_witness :
  let text := Fixture.lines [py "# Skill"; py "### Available Roles";
                             py "| `alpha` | first |"; py "| `beta` | second |";
                             py "### Usage"; py "Run `gamma`."] in
  let fs := Fixture.skill text [py "common-roles/alpha.md"] in
  _manual_lint Fixture.insertion_order fs Fixture.root
  = Some [py "Role listed in SKILL.md missing: common-roles/beta.md"]
  ∧ Spec.roles_section (Str.splitlines text)
    = [py "| `alpha` | first |"; py "| `beta` | second |"]
  ∧ Report.select Report.is_missing_role
      [py "Role listed in SKILL.md missing: common-roles/beta.md"]
    = [py "Role listed in SKILL.md missing: common-roles/beta.md"].
Proof.
  split; [vm_compute; reflexivity|]. split; [vm_compute; reflexivity|].
  destruct (role_check_section Fixture.insertion_order
              (Fixture.skill
                 (Fixture.lines [py "# Skill"; py "### Available Roles";
                                 py "| `alpha` | first |"; py "| `beta` | second |";
                                 py "### Usage"; py "Run `gamma`."])
                 [py "common-roles/alpha.md"])
              Fixture.root
              (Fixture.lines [py "# Skill"; py "### Available Roles";
                              py "| `alpha` | first |"; py "| `beta` | second |";
                              py "### Usage"; py "Run `gamma`."])
              [py "Role listed in SKILL.md missing: common-roles/beta.md"])
    as (_ & _ & Hsel).
  - vm_compute; reflexivity.
  - vm_compute; reflexivity.
  - vm_compute; reflexivity.
  - rewrite Hsel. vm_compute. reflexivity.
Defined.

(** C10, as stated, fails: a manifest whose roles section lists a role twice
    need not get a report. Here the file of [beta] is absent and [beta] is
    listed twice, but the probe of another listed role's file raises, so
    the run ends without a report. *)
Lemma repeated_role_without_report :
  let text := Fixture.lines [py "### Available Roles"; py "`beta`, `beta`";
                             py "`" ++ Fixture.long_role ++ py "`"] in
  let fs := Fixture.skill text [] in
  Spec.count (py "beta")
    (Spec.tokens_of (Spec.roles_section (Str.splitlines text))) = 2
  ∧ path_exists fs (Fixture.root // py "common-roles" // (py "beta" ++ py ".md"))
    = Some false
  ∧ _manual_lint Fixture.insertion_order fs Fixture.root = None.
Proof. repeat split; vm_compute; reflexivity. Qed.

(** C10, amended: missing-role errors are not deduplicated. When the rule
    checker returns a report for an existing manifest, then for a role
    whose file is absent from the companion directory the report has as
    many copies of that role's error as the lines of the roles section
    hold occurrences of the role in backticks. *)
Theorem missing_role_errors_repeat
    (python : Interpreter) (fs : FS) (repo_root : Path.t)
    (text role : list N) (errors : list (list N)) :
  path_exists fs (repo_root // py "SKILL.md") = Some true →
  path_read_text fs (repo_root // py "SKILL.md") = Some text →
  _manual_lint python fs repo_root = Some errors →
  path_exists fs (repo_root // py "common-roles" // (role ++ py ".md"))
  = Some false →
  Spec.count
    (py "Role listed in SKILL.md missing: common-roles/" ++ role ++ py ".md")
    errors
  = Spec.count role
      (Spec.tokens_of (Spec.roles_section (Str.splitlines text))).
Proof.
  intros Hex Hread Hlint Habsent.
  destruct (manual_lint_kinds python fs repo_root text errors Hex Hread Hlint)
    as (header & _ & _ & _ & _ & _ & _ & Hroles & _).
  change (py "Role listed in SKILL.md missing: common-roles/" ++ role ++ py ".md")
    with (Msg.missing_role role).
  rewrite <- (count_select Report.is_missing_role) by done.
  rewrite Hroles, count_role_errors, roles_loop_section.
  unfold Report.role_file. by rewrite decide_True.
Qed.

Lemma missing_role_errors_repeat_witness :
  let text := Fixture.lines [py "### Available Roles";
                             py "`beta` and `alpha`"; py "`beta`, `beta`"] in
  let fs := Fixture.skill text [py "common-roles/alpha.md"] in
  Spec.count (py "beta")
    (Spec.tokens_of (Spec.roles_section (Str.splitlines text))) = 3
  ∧ _manual_lint Fixture.insertion_order fs Fixture.root
    = Some (replicate 3 (py "Role listed in SKILL.md missing: common-roles/beta.md"))
  ∧ Spec.count (py "Role listed in SKILL.md missing: common-roles/beta.md")
      (replicate 3 (py "Role listed in SKILL.md missing: common-roles/beta.md"))
    = 3.
Proof.
  split; [vm_compute; reflexivity|]. split; [vm_compute; reflexivity|].
  etrans.
  - apply (missing_role_errors_repeat Fixture.insertion_order
             (Fixture.skill
                (Fixture.lines [py "### Available Roles";
                                py "`beta` and `alpha`"; py "`beta`, `beta`"])
                [py "common-roles/alpha.md"])
             Fixture.root
             (Fixture.lines [py "### Available Roles";
                             py "`beta` and `alpha`"; py "`beta`, `beta`"])
             (py "beta")
             (replicate 3 (py "Role listed in SKILL.md missing: common-roles/beta.md")));
      vm_compute; reflexivity.
  - vm_compute; reflexivity.
Defined.

(** ** The referenced paths *)

(** C7, as stated, fails. The order of the reference errors is the order in
    which the interpreter iterates the set, and a further occurrence of a
    token placed before the first changes the order of insertion: under an
    interpreter that iterates these sets in the order of first insertion
    (as CPython 3.11 does for these two strings with hash seed 0) the two
    errors change places. And a manifest need not get a report: where the
    probe of a listed role's file raises, no reference error is reported. *)
Lemma duplicate_reference_reorders_report :
  let once := py "See `references/b.md` and `references/n.md`." in
  let twice := py "`references/n.md`: " ++ once in
  let lost := Fixture.lines [py "### Available Roles";
                             py "`" ++ Fixture.long_role ++ py "`";
                             py "`references/b.md`, `references/b.md`"] in
  Re.findall Re.backticked_reference once
  = [py "references/b.md"; py "references/n.md"]
  ∧ Re.findall Re.backticked_reference twice
    = [py "references/n.md"; py "references/b.md"; py "references/n.md"]
  ∧ _manual_lint Fixture.insertion_order (Fixture.skill once []) Fixture.root
    = Some [py "Referenced file not found: references/b.md";
            py "Referenced file not found: references/n.md"]
  ∧ _manual_lint Fixture.insertion_order (Fixture.skill twice []) Fixture.root
    = Some [py "Referenced file not found: references/n.md";
            py "Referenced file not found: references/b.md"]
  ∧ _manual_lint Fixture.insertion_order (Fixture.skill lost []) Fixture.root
    = None.
Proof. repeat split; vm_compute; reflexivity. Qed.

(** C7, amended: the referenced paths are checked as a set. When the rule
    checker returns a report for an existing manifest, the report has
    exactly one error for each distinct token [references/...] in backticks
    whose path does not exist, however often the token occurs, and none for
    any other path; and the reports of two manifests with the same set of
    such tokens, read against the same files, have the same reference
    errors up to their order. *)
Theorem reference_errors_deduplicated :
  (∀ (python : Interpreter) (fs : FS) (repo_root : Path.t)
     (text ref : list N) (errors : list (list N)),
     path_exists fs (repo_root // py "SKILL.md") = Some true →
     path_read_text fs (repo_root // py "SKILL.md") = Some text →
     _manual_lint python fs repo_root = Some errors →
     Spec.count (py "Referenced file not found: " ++ ref) errors
     = if decide (ref ∈ Re.findall Re.backticked_reference text
                  ∧ path_exists fs (repo_root // ref) = Some false)
       then 1 else 0)
  ∧ (∀ (python python' : Interpreter) (fs fs' : FS) (repo_root : Path.t)
       (text text' : list N) (errors errors' : list (list N)),
       path_exists fs (repo_root // py "SKILL.md") = Some true →
       path_read_text fs (repo_root // py "SKILL.md") = Some text →
       path_read_text fs' (repo_root // py "SKILL.md") = Some text' →
       (∀ p, path_exists fs' p = path_exists fs p) →
       (∀ ref, ref ∈ Re.findall Re.backticked_reference text
               ↔ ref ∈ Re.findall Re.backticked_reference text') →
       _manual_lint python fs repo_root = Some errors →
       _manual_lint python' fs' repo_root = Some errors' →
       Report.select Report.is_missing_reference errors
       ≡ₚ Report.select Report.is_missing_reference errors').
Proof.
  split.
  - intros python fs repo_root text ref errors Hex Hread Hlint.
    destruct (manual_lint_kinds python fs repo_root text errors Hex Hread Hlint)
      as (header & _ & _ & _ & _ & _ & _ & _ & Hrefs & _).
    change (py "Referenced file not found: " ++ ref)
      with (Msg.missing_reference ref).
    rewrite <- (count_select Report.is_missing_reference) by done.
    by rewrite Hrefs, count_reference_errors.
  - intros python python' fs fs' repo_root text text' errors errors'
      Hex Hread Hread' Hsame Htokens Hlint Hlint'.
    assert (path_exists fs' (repo_root // py "SKILL.md") = Some true) as Hex'
      by by rewrite Hsame.
    destruct (manual_lint_kinds python fs repo_root text errors Hex Hread Hlint)
      as (header & _ & _ & _ & _ & _ & _ & _ & -> & _).
    destruct (manual_lint_kinds python' fs' repo_root text' errors'
                Hex' Hread' Hlint')
      as (header' & _ & _ & _ & _ & _ & _ & _ & -> & _).
    unfold Report.reference_errors, Spec.reference_tokens.
    apply fmap_Permutation.
    rewrite (list_filter_iff _
               (λ ref, path_exists fs (repo_root // ref) = Some false)
               (set_iter python' _)) by (intros ref; by rewrite Hsame).
    apply filter_Permutation, NoDup_Permutation; try apply set_iter_NoDup.
    intros ref. by rewrite !set_iter_elem.
Qed.

Lemma reference_errors_deduplicated_witness :
  let once := py "See `references/b.md` and `references/n.md`." in
  let twice := py "`references/n.md`: " ++ once in
  Spec.count (py "Referenced file not found: references/n.md")
    [py "Referenced file not found: references/n.md";
     py "Referenced file not found: references/b.md"] = 1
  ∧ Report.select Report.is_missing_reference
      [py "Referenced file not found: references/n.md";
       py "Referenced file not found: references/b.md"]
    ≡ₚ Report.select Report.is_missing_reference
         [py "Referenced file not found: references/b.md";
          py "Referenced file not found: references/n.md"].
Proof.
  split.
  - etrans.
    + apply (proj1 reference_errors_deduplicated Fixture.insertion_order
               (Fixture.skill
                  (py "`references/n.md`: "
                     ++ py "See `references/b.md` and `references/n.md`.") [])
               Fixture.root
               (py "`references/n.md`: "
                  ++ py "See `references/b.md` and `references/n.md`.")
               (py "references/n.md"));
        vm_compute; reflexivity.
    + vm_compute; reflexivity.
  - apply (proj2 reference_errors_deduplicated
             Fixture.insertion_order Fixture.insertion_order
             (Fixture.skill
                (py "`references/n.md`: "
                   ++ py "See `references/b.md` and `references/n.md`.") [])
             (Fixture.skill
                (py "See `references/b.md` and `references/n.md`.") [])
             Fixture.root
             (py "`references/n.md`: "
                ++ py "See `references/b.md` and `references/n.md`.")
             (py "See `references/b.md` and `references/n.md`.")).
    + vm_compute; reflexivity.
    + vm_compute; reflexivity.
    + vm_compute; reflexivity.
    + intros p. unfold Fixture.skill, Fixture.disk, path_exists.
      cbn [Fixture.assoc fmap list_fmap].
      repeat (destruct (decide _)); reflexivity.
    + intros ref.
      change (Re.findall Re.backticked_reference
                (py "`references/n.md`: "
                   ++ py "See `references/b.md` and `references/n.md`."))
        with [py "references/n.md"; py "references/b.md"; py "references/n.md"].
      change (Re.findall Re.backticked_reference
                (py "See `references/b.md` and `references/n.md`."))
        with [py "references/b.md"; py "references/n.md"].
      rewrite !elem_of_cons. tauto.
    + vm_compute; reflexivity.
    + vm_compute; reflexivity.
Defined.

(** * Further properties of the script *)

(** ** More on the string operations *)

Section MoreStrFacts.

Implicit Types (c a b : N) (s k v x y needle hay pre post : list N).
Implicit Types (p : N → bool).

Lemma startswith_prefix needle s :
  Str.startswith needle s = true ↔ ∃ post, s = needle ++ post.
Proof.
  revert s. induction needle as [|a needle IH]; intros s.
  - simpl. split; [by exists s | done].
  - destruct s as [|b s]; simpl.
    + split; [done | by intros [post ?]].
    + rewrite andb_true_iff, N.eqb_eq, IH. split.
      * intros [-> [post ->]]. by exists post.
      * intros [post [= -> ->]]. split; [done | by exists post].
Qed.

(** [needle in hay] holds exactly when the needle occurs somewhere. *)
Lemma contains_infix needle hay :
  Str.contains needle hay = true ↔ ∃ pre post, hay = pre ++ needle ++ post.
Proof.
  induction hay as [|c hay IH].
  - simpl. rewrite orb_false_r, startswith_prefix. split.
    + intros [post Heq]. by exists [], post.
    + intros (pre & post & Heq). symmetry in Heq.
      apply app_eq_nil in Heq as [-> Heq]. by exists post.
  - change (Str.contains needle (c :: hay))
      with (Str.startswith needle (c :: hay) || Str.contains needle hay).
    rewrite orb_true_iff, startswith_prefix, IH. split.
    + intros [[post Heq] | (pre & post & ->)].
      * by exists [], post.
      * by exists (c :: pre), post.
    + intros (pre & post & Heq). destruct pre as [|c' pre].
      * left. by exists post.
      * right. injection Heq as -> ->. by exists pre, post.
Qed.

Lemma lstrip_by_head p s :
  match Str.lstrip_by p s with
  | [] => True
  | c :: _ => p c = false
  end.
Proof.
  induction s as [|c s IH]; simpl; [done|].
  destruct (p c) eqn:Hc; [done|]. exact Hc.
Qed.

Lemma lstrip_by_fixed p c s : p c = false → Str.lstrip_by p (c :: s) = c :: s.
Proof. intros Hc. simpl. by rewrite Hc. Qed.

Lemma lstrip_by_idemp p s :
  Str.lstrip_by p (Str.lstrip_by p s) = Str.lstrip_by p s.
Proof.
  pose proof (lstrip_by_head p s) as Hh.
  destruct (Str.lstrip_by p s) as [|c t]; [done|]. by apply lstrip_by_fixed.
Qed.

Lemma lstrip_by_snoc p s c :
  p c = false → Str.lstrip_by p (s ++ [c]) = Str.lstrip_by p s ++ [c].
Proof.
  intros Hc. destruct (lstrip_by_app p s [c]) as [[Hall Hnil] | Heq]; [|done].
  rewrite lstrip_by_all by done. rewrite Hnil. by apply lstrip_by_fixed.
Qed.

Lemma rstrip_by_idemp p s :
  Str.rstrip_by p (Str.rstrip_by p s) = Str.rstrip_by p s.
Proof.
  unfold Str.rstrip_by. by rewrite reverse_involutive, lstrip_by_idemp.
Qed.

(** Stripping the right end leaves a stripped left end as it is. *)
Lemma lstrip_by_rstrip_by p s :
  Str.lstrip_by p (Str.rstrip_by p (Str.lstrip_by p s))
  = Str.rstrip_by p (Str.lstrip_by p s).
Proof.
  pose proof (lstrip_by_head p s) as Hh.
  destruct (Str.lstrip_by p s) as [|c t]; [done|].
  unfold Str.rstrip_by. rewrite reverse_cons, lstrip_by_snoc by done.
  rewrite reverse_app. simpl. by rewrite Hh.
Qed.

Lemma strip_by_idemp p s :
  Str.strip_by p (Str.strip_by p s) = Str.strip_by p s.
Proof.
  unfold Str.strip_by. by rewrite lstrip_by_rstrip_by, rstrip_by_idemp.
Qed.

Lemma lstrip_by_subseteq p s c : c ∈ Str.lstrip_by p s → c ∈ s.
Proof.
  induction s as [|a s IH]; simpl; [done|].
  destruct (p a); [|done]. intros Hin. apply elem_of_cons. right. by apply IH.
Qed.

Lemma strip_by_subseteq p s c : c ∈ Str.strip_by p s → c ∈ s.
Proof.
  unfold Str.strip_by, Str.rstrip_by. rewrite elem_of_reverse.
  intros Hin%lstrip_by_subseteq. rewrite elem_of_reverse in Hin.
  by eapply lstrip_by_subseteq.
Qed.

End MoreStrFacts.

(** ** More on the header parser *)

Section MoreParser.

Implicit Types (text line first key value d : list N).
Implicit Types (lines rest pre post block : list (list N)).
Implicit Types (header : gmap (list N) (list N)).

Lemma until_closing {A} (stop : A → bool) (l l' : list A) (x : A) :
  stop x = true → Spec.until stop (l ++ x :: l') = Spec.until stop l.
Proof.
  intros Hx. induction l as [|y l IH]; simpl; [by rewrite Hx|].
  destruct (stop y); [done|]. by rewrite IH.
Qed.

Lemma until_subseteq {A} (stop : A → bool) (l : list A) (x : A) :
  x ∈ Spec.until stop l → x ∈ l.
Proof.
  induction l as [|y l IH]; simpl; [done|].
  destruct (stop y); [by intros ?%elem_of_nil|].
  intros [-> | Hin]%elem_of_cons; apply elem_of_cons; [by left|].
  right. by apply IH.
Qed.

Lemma declares_Some key line value :
  Header.declares key line = Some value ↔ Spec.entry line = Some (key, value).
Proof.
  unfold Header.declares. destruct (Spec.entry line) as [[k v]|]; [|done].
  destruct (decide (k = key)) as [-> | Hne]; split; intros [= ?]; by subst.
Qed.

Lemma add_entry_lookup header line key :
  Spec.add_entry header line !! key
  = match Header.declares key line with
    | Some value => Some value
    | None => header !! key
    end.
Proof.
  unfold Spec.add_entry, Header.declares.
  destruct (Spec.entry line) as [[k v]|]; [|done].
  destruct (decide (k = key)) as [-> | Hne].
  - apply lookup_insert_eq.
  - by apply lookup_insert_ne.
Qed.

(** The header holds for each key the value of the last line declaring it. *)
Lemma foldl_add_entry_last block header key :
  foldl Spec.add_entry header block !! key
  = match last (omap (Header.declares key) block) with
    | Some value => Some value
    | None => header !! key
    end.
Proof.
  revert header. induction block as [|line block IH]; intros header; [done|].
  simpl. rewrite IH, add_entry_lookup.
  destruct (Header.declares key line) as [value|]; [|done].
  rewrite last_cons. by destruct (last _).
Qed.

Lemma entry_Some line key value :
  Spec.entry line = Some (key, value) →
  ∃ k v, line = k ++ 58%N :: v ∧ (58%N ∉ k)
         ∧ key = Str.strip k ∧ value = Spec.strip_quotes (Str.strip v).
Proof.
  intros He. destruct (decide (58%N ∈ line)) as [Hin|Hno].
  - destruct (elem_of_first _ _ Hin) as (k & v & -> & Hk).
    rewrite entry_first in He by done. injection He as <- <-. by exists k, v.
  - unfold Spec.entry in He. by rewrite bool_decide_eq_false_2 in He.
Qed.

(** What the parser returns, whichever way the text starts. *)
Lemma parse_frontmatter_cases text header :
  _parse_frontmatter text = Some header →
  header = ∅
  ∨ ∃ first rest,
      Str.splitlines text = first :: rest
      ∧ Str.strip first = Spec.delimiter
      ∧ header = Spec.header_of_block (Spec.header_block rest).
Proof.
  unfold _parse_frontmatter.
  destruct (Str.splitlines text) as [|first rest]; [intros [= <-]; by left|].
  destruct (decide (Str.strip first ≠ py "---")) as [Hne|Heq].
  - intros [= <-]. by left.
  - rewrite frontmatter_loop_block. intros [= <-]. right.
    exists first, rest. split; [done|]. split; [|done].
    by destruct (decide (Str.strip first = py "---")).
Qed.

End MoreParser.

(** X1: in a text that opens a header, the value the header holds for a key
    is the one declared by the last line of the header block that declares
    the key, and a key no line of the block declares is absent. *)
Theorem header_lookup_last_declaration
    (text first key : list N) (rest : list (list N)) :
  Str.splitlines text = first :: rest →
  Str.strip first = Spec.delimiter →
  ∃ header,
    _parse_frontmatter text = Some header
    ∧ header !! key
      = last (omap (Header.declares key) (Spec.header_block rest)).
Proof.
  intros Hl Hf. eexists. split; [by eapply parse_frontmatter_header|].
  unfold Spec.header_of_block. rewrite foldl_add_entry_last, lookup_empty.
  by destruct (last _).
Qed.

Lemma header_lookup_last_declaration_witness :
  let text := Fixture.lines [py "---"; py "name: first"; py "kind : x";
                             py "name: second"; py "---"; py "name: third"] in
  ∃ header,
    _parse_frontmatter text = Some header
    ∧ header !! py "name" = Some (py "second")
    ∧ header !! py "title" = None.
Proof.
  destruct (header_lookup_last_declaration
              (Fixture.lines [py "---"; py "name: first"; py "kind : x";
                              py "name: second"; py "---"; py "name: third"])
              (py "---") (py "name")
              [py "name: first"; py "kind : x"; py "name: second"; py "---";
               py "name: third"])
    as (header & Hparse & Hname).
  - reflexivity.
  - reflexivity.
  - exists header. split; [exact Hparse|]. split; [exact Hname|].
    vm_compute in Hparse. injection Hparse as <-. vm_compute. reflexivity.
Defined.

(** X2: the parser stops at the closing delimiter. A text parses like the
    text cut before the first later line that trimmed is the delimiter, so
    nothing after that line reaches the header, and a header block that is
    never closed is read to the end of the input. *)
Theorem parse_frontmatter_stops_at_closing
    (text text' first d : list N) (pre post : list (list N)) :
  Str.splitlines text = first :: pre ++ d :: post →
  Str.splitlines text' = first :: pre →
  Str.strip d = Spec.delimiter →
  _parse_frontmatter text = _parse_frontmatter text'.
Proof.
  intros Hl Hl' Hd.
  destruct (decide (Str.strip first = Spec.delimiter)) as [Hf|Hf].
  - rewrite (parse_frontmatter_header _ _ _ Hl Hf),
      (parse_frontmatter_header _ _ _ Hl' Hf).
    unfold Spec.header_block. rewrite until_closing; [done|].
    unfold Spec.is_delimiter. by rewrite bool_decide_eq_true_2.
  - rewrite !parse_frontmatter_no_header; [done| |]; by rewrite ?Hl, ?Hl'.
Qed.

Lemma parse_frontmatter_stops_at_closing_witness :
  _parse_frontmatter
    (Fixture.lines [py "---"; py "name: x"; py " --- "; py "name: y"; py "a: b"])
  = _parse_frontmatter (Fixture.lines [py "---"; py "name: x"]).
Proof.
  apply (parse_frontmatter_stops_at_closing
           (Fixture.lines [py "---"; py "name: x"; py " --- "; py "name: y"; py "a: b"])
           (Fixture.lines [py "---"; py "name: x"])
           (py "---") (py " --- ") [py "name: x"] [py "name: y"; py "a: b"]).
  - reflexivity.
  - reflexivity.
  - reflexivity.
Defined.

(** X3: every entry of a parsed header comes from a line of the text that
    holds the separator: the key is the part before the first separator,
    trimmed, so it holds no separator and no white space at its ends, and
    the value is the part after it, trimmed and unquoted, so it has no
    single quote at its ends. *)
Theorem header_entries_wellformed
    (text key value : list N) (header : gmap (list N) (list N)) :
  _parse_frontmatter text = Some header →
  header !! key = Some value →
  (∃ k v, k ++ 58%N :: v ∈ Str.splitlines text
          ∧ (58%N ∉ k)
          ∧ key = Str.strip k
          ∧ value = Str.strip_chars (py "'")
                      (Str.strip_chars Str.DQUOTE (Str.strip v)))
  ∧ (58%N ∉ key)
  ∧ Str.strip key = key
  ∧ Str.strip_chars (py "'") value = value.
Proof.
  intros Hparse Hlookup.
  destruct (parse_frontmatter_cases _ _ Hparse)
    as [-> | (first & rest & Hl & _ & ->)]; [by rewrite lookup_empty in Hlookup|].
  unfold Spec.header_of_block in Hlookup.
  rewrite foldl_add_entry_last, lookup_empty in Hlookup.
  destruct (last _) as [value'|] eqn:Hlast; [|done]. injection Hlookup as ->.
  apply last_Some_elem_of, list_elem_of_omap in Hlast as (line & Hin & Hdecl).
  apply declares_Some, entry_Some in Hdecl as (k & v & -> & Hk & -> & ->).
  split; [|split; [|split]].
  - exists k, v. split; [|done]. rewrite Hl. apply elem_of_cons. right.
    by eapply until_subseteq.
  - intros Hin'. apply Hk. by eapply strip_by_subseteq.
  - apply strip_by_idemp.
  - apply strip_by_idemp.
Qed.

Lemma header_entries_wellformed_witness :
  let text := Fixture.lines [py "---"; py "  title :  'a: b' "; py "---"] in
  _parse_frontmatter text = Some {[ py "title" := py "a: b" ]}
  ∧ (58%N ∉ py "title")
  ∧ Str.strip (py "title") = py "title"
  ∧ Str.strip_chars (py "'") (py "a: b") = py "a: b".
Proof.
  split; [vm_compute; reflexivity|].
  apply (header_entries_wellformed
           (Fixture.lines [py "---"; py "  title :  'a: b' "; py "---"])
           (py "title") (py "a: b") {[ py "title" := py "a: b" ]}).
  - vm_compute; reflexivity.
  - vm_compute; reflexivity.
Defined.

(** ** More on the rule checker *)

Section MoreLint.

Implicit Types (text line e x : list N) (lines errors roles : list (list N)).
Implicit Types (fs : FS) (repo_root : Path.t) (kind : list N → bool).
Implicit Types (python : Interpreter).

Lemma absent_nil {A} (probe : A → option bool) (msg : A → list N) (l : list A) :
  msg <$> filter (λ item, probe item = Some false) l = []
  ↔ ∀ item, item ∈ l → probe item ≠ Some false.
Proof.
  induction l as [|item l IH].
  - split; [by intros _ ? ?%elem_of_nil | done].
  - destruct (decide (probe item = Some false)) as [Hp|Hp].
    + rewrite filter_cons_True by done. split; [done|].
      intros Hl. by destruct (Hl item (list_elem_of_here _ _)).
    + rewrite filter_cons_False by done. rewrite IH. split.
      * intros Hl item' [-> | ?]%elem_of_cons; [done | by apply Hl].
      * intros Hl item' Hin. apply Hl, elem_of_cons. by right.
Qed.

Lemma after_none {A} (start : A → bool) (l : list A) :
  Forall (λ item, start item = false) l → Spec.after start l = [].
Proof. induction 1 as [|item l Hi _ IH]; simpl; [done|]. by rewrite Hi. Qed.

Lemma returned_present (probe : option bool) :
  is_Some probe → probe ≠ Some false → probe = Some true.
Proof. by intros [[|] ->] ?. Qed.

End MoreLint.

(** X4: when the rule checker returns a report for an existing manifest,
    the report holds the deprecated-path error, once, exactly when the text
    holds [utilities/common-roles], wherever it stands and whatever
    surrounds it. *)
Theorem deprecated_path_reported
    (python : Interpreter) (fs : FS) (repo_root : Path.t)
    (text : list N) (errors : list (list N)) :
  path_exists fs (repo_root // py "SKILL.md") = Some true →
  path_read_text fs (repo_root // py "SKILL.md") = Some text →
  _manual_lint python fs repo_root = Some errors →
  (Report.select Fixed.is_deprecated_path errors
   = [py "SKILL.md references utilities/common-roles/, but the directory is common-roles/."]
   ↔ ∃ pre post, text = pre ++ py "utilities/common-roles" ++ post)
  ∧ (Report.select Fixed.is_deprecated_path errors = []
     ↔ ¬ ∃ pre post, text = pre ++ py "utilities/common-roles" ++ post).
Proof.
  intros Hex Hread Hlint.
  destruct (manual_lint_kinds python fs repo_root text errors Hex Hread Hlint)
    as (header & _ & _ & _ & Hsel & _).
  rewrite Hsel. unfold Report.deprecated_errors. rewrite <- contains_infix.
  destruct (Str.contains _ text); split; split; done.
Qed.

Lemma deprecated_path_reported_witness :
  let text := Fixture.lines [py "# Skill"; py "See `utilities/common-roles/a.md`."] in
  _manual_lint Fixture.insertion_order (Fixture.skill text []) Fixture.root
  = Some [py "SKILL.md references utilities/common-roles/, but the directory is common-roles/."]
  ∧ Report.select Fixed.is_deprecated_path
      [py "SKILL.md references utilities/common-roles/, but the directory is common-roles/."]
    = [py "SKILL.md references utilities/common-roles/, but the directory is common-roles/."].
Proof.
  split; [vm_compute; reflexivity|].
  apply (proj1 (deprecated_path_reported Fixture.insertion_order
                  (Fixture.skill
                     (Fixture.lines [py "# Skill";
                                     py "See `utilities/common-roles/a.md`."]) [])
                  Fixture.root
                  (Fixture.lines [py "# Skill";
                                  py "See `utilities/common-roles/a.md`."])
                  [py "SKILL.md references utilities/common-roles/, but the directory is common-roles/."]
                  ltac:(vm_compute; reflexivity) ltac:(vm_compute; reflexivity)
                  ltac:(vm_compute; reflexivity))).
  exists (py "# Skill" ++ Str.LF ++ py "See `"), (py "/a.md`." ++ Str.LF).
  vm_compute. reflexivity.
Defined.

(** X5: when the rule checker returns a report for an existing manifest,
    the probe of [common-roles] under the document root has returned, and
    the report holds the missing-directory error, once, exactly when the
    probe found no directory. *)
Theorem missing_roles_dir_reported
    (python : Interpreter) (fs : FS) (repo_root : Path.t)
    (text : list N) (errors : list (list N)) :
  path_exists fs (repo_root // py "SKILL.md") = Some true →
  path_read_text fs (repo_root // py "SKILL.md") = Some text →
  _manual_lint python fs repo_root = Some errors →
  ∃ present,
    path_is_dir fs (repo_root // py "common-roles") = Some present
    ∧ Report.select Fixed.is_missing_roles_dir errors
      = if present then [] else [py "Missing common-roles/ directory."].
Proof.
  intros Hex Hread Hlint.
  destruct (manual_lint_kinds python fs repo_root text errors Hex Hread Hlint)
    as (header & _ & ([present Hdir] & _) & _ & _ & _ & Hsel & _).
  exists present. split; [done|]. rewrite Hsel.
  unfold Report.directory_errors. rewrite Hdir. by destruct present.
Qed.

Lemma missing_roles_dir_reported_witness :
  let fs := Fixture.disk [(Fixture.root // py "SKILL.md", py "# Skill");
                          (Fixture.root // py "common-roles", [])]
              [Fixture.root] in
  path_exists fs (Fixture.root // py "common-roles") = Some true
  ∧ ∃ present,
      path_is_dir fs (Fixture.root // py "common-roles") = Some present
      ∧ Report.select Fixed.is_missing_roles_dir
          [py "Missing common-roles/ directory."]
        = if present then [] else [py "Missing common-roles/ directory."].
Proof.
  split; [vm_compute; reflexivity|].
  apply (missing_roles_dir_reported Fixture.insertion_order
           (Fixture.disk [(Fixture.root // py "SKILL.md", py "# Skill");
                          (Fixture.root // py "common-roles", [])]
              [Fixture.root])
           Fixture.root (py "# Skill") [py "Missing common-roles/ directory."]).
  - vm_compute; reflexivity.
  - vm_compute; reflexivity.
  - vm_compute; reflexivity.
Defined.

(** X6: when the rule checker returns a report for an existing manifest,
    the report holds the how-to error, once, exactly when the text mentions
    [delegate.how-to.md] and the probe found no such file under the document
    root. *)
Theorem missing_how_to_reported
    (python : Interpreter) (fs : FS) (repo_root : Path.t)
    (text : list N) (errors : list (list N)) :
  path_exists fs (repo_root // py "SKILL.md") = Some true →
  path_read_text fs (repo_root // py "SKILL.md") = Some text →
  _manual_lint python fs repo_root = Some errors →
  (Report.select Fixed.is_missing_how_to errors
   = [py "SKILL.md references delegate.how-to.md, but the file does not exist."]
   ↔ (∃ pre post, text = pre ++ py "delegate.how-to.md" ++ post)
     ∧ path_exists fs (repo_root // py "delegate.how-to.md") = Some false)
  ∧ (Report.select Fixed.is_missing_how_to errors = []
     ↔ ¬ ((∃ pre post, text = pre ++ py "delegate.how-to.md" ++ post)
          ∧ path_exists fs (repo_root // py "delegate.how-to.md") = Some false)).
Proof.
  intros Hex Hread Hlint.
  destruct (manual_lint_kinds python fs repo_root text errors Hex Hread Hlint)
    as (header & _ & _ & _ & _ & _ & _ & _ & _ & Hsel).
  rewrite Hsel. unfold Report.how_to_errors. rewrite <- contains_infix.
  destruct (Str.contains _ text);
    destruct (path_exists fs (repo_root // py "delegate.how-to.md"))
      as [[|]|]; simpl;
    split; split; try done; try (by intros [? ?]); try (by intros []);
    by intros _ [? ?].
Qed.

Lemma missing_how_to_reported_witness :
  let text := Fixture.lines [py "Read delegate.how-to.md first."] in
  _manual_lint Fixture.insertion_order (Fixture.skill text []) Fixture.root
  = Some [py "SKILL.md references delegate.how-to.md, but the file does not exist."]
  ∧ _manual_lint Fixture.insertion_order
      (Fixture.skill text [py "delegate.how-to.md"]) Fixture.root
    = Some []
  ∧ Report.select Fixed.is_missing_how_to
      [py "SKILL.md references delegate.how-to.md, but the file does not exist."]
    = [py "SKILL.md references delegate.how-to.md, but the file does not exist."].
Proof.
  split; [vm_compute; reflexivity|]. split; [vm_compute; reflexivity|].
  apply (proj1 (missing_how_to_reported Fixture.insertion_order
                  (Fixture.skill
                     (Fixture.lines [py "Read delegate.how-to.md first."]) [])
                  Fixture.root
                  (Fixture.lines [py "Read delegate.how-to.md first."])
                  [py "SKILL.md references delegate.how-to.md, but the file does not exist."]
                  ltac:(vm_compute; reflexivity) ltac:(vm_compute; reflexivity)
                  ltac:(vm_compute; reflexivity))).
  split.
  - exists (py "Read "), (py " first." ++ Str.LF). vm_compute. reflexivity.
  - vm_compute. reflexivity.
Defined.

(** X7: for a manifest that can be read, the report is empty exactly when
    every check passes: at most 500 lines, no deprecated path in the text,
    a declared name that is absent, empty or the folder's name, the
    companion directory present, the file of every listed role present,
    every referenced path present, and the how-to file present if the text
    mentions it. *)
Theorem manual_lint_clean
    (python : Interpreter) (fs : FS) (repo_root : Path.t) (text : list N) :
  path_exists fs (repo_root // py "SKILL.md") = Some true →
  path_read_text fs (repo_root // py "SKILL.md") = Some text →
  ∃ header,
    _parse_frontmatter text = Some header
    ∧ (_manual_lint python fs repo_root = Some []
       ↔ length (Str.splitlines text) ≤ 500
         ∧ Str.contains (py "utilities/common-roles") text = false
         ∧ Header.name_accepted header (Path.name repo_root)
         ∧ path_is_dir fs (repo_root // py "common-roles") = Some true
         ∧ (∀ role, role ∈ roles_loop (Str.splitlines text) false [] →
              path_exists fs
                (repo_root // py "common-roles" // (role ++ py ".md"))
              = Some true)
         ∧ (∀ ref, ref ∈ Re.findall Re.backticked_reference text →
              path_exists fs (repo_root // ref) = Some true)
         ∧ (Str.contains (py "delegate.how-to.md") text = true →
              path_exists fs (repo_root // py "delegate.how-to.md")
              = Some true)).
Proof.
  intros Hex Hread.
  destruct (parse_frontmatter_total text) as [header Hh].
  exists header. split; [done|].
  rewrite (manual_lint_Some python fs repo_root text header [] Hex Hread Hh).
  assert (∀ l : list (list N), [] = l ↔ l = []) as -> by (by split).
  rewrite !app_nil.
  unfold Report.probes_return, Report.role_errors, Report.reference_errors.
  rewrite !absent_nil, !Forall_forall.
  setoid_rewrite set_iter_elem.
  assert (Report.length_errors (Str.splitlines text) = []
          ↔ length (Str.splitlines text) ≤ 500) as ->.
  { unfold Report.length_errors. destruct (decide _); split; try done; lia. }
  assert (Report.deprecated_errors text = []
          ↔ Str.contains (py "utilities/common-roles") text = false) as ->.
  { unfold Report.deprecated_errors. by destruct (Str.contains _ text). }
  assert (Report.name_errors header (Path.name repo_root) = []
          ↔ Header.name_accepted header (Path.name repo_root)) as ->.
  { unfold Report.name_errors, Header.name_accepted.
    destruct (header !! py "name") as [skill_name|]; [|done].
    destruct (decide (skill_name = [])) as [-> | Hne]; [by split; [left|]|].
    rewrite (bool_decide_eq_true_2 (skill_name ≠ [])) by done. simpl.
    destruct (decide (skill_name = Path.name repo_root)) as [Heq|Hdiff].
    - rewrite bool_decide_eq_false_2 by (intros H; by apply H).
      by split; [right|].
    - rewrite bool_decide_eq_true_2 by done. split; [done | by intros [?|?]]. }
  unfold Report.directory_errors, Report.how_to_errors, Report.role_file,
    Spec.reference_tokens.
  split.
  - intros [(Hdir & Hroles & Hrefs & Hhow) (Hn & Hd & Hname & Hnodir & Hr & Hf & Hh')].
    repeat split; try done.
    + by destruct Hdir as [[|] Hdir]; rewrite Hdir in Hnodir |- *.
    + intros role Hin. apply returned_present; [by apply Hroles | by apply Hr].
    + intros ref Hin. apply returned_present; [by apply Hrefs | by apply Hf].
    + intros Hc. rewrite Hc in Hh'. destruct (Hhow Hc) as [[|] Hp]; [done|].
      by rewrite Hp in Hh'.
  - intros (Hn & Hd & Hname & Hdir & Hroles & Hrefs & Hhow).
    repeat split; try done.
    + intros role Hin. by rewrite Hroles.
    + intros ref Hin. by rewrite Hrefs.
    + intros Hc. by rewrite Hhow.
    + by rewrite Hdir.
    + intros role Hin. by rewrite Hroles.
    + intros ref Hin. by rewrite Hrefs.
    + destruct (Str.contains (py "delegate.how-to.md") text); [|done].
      by rewrite Hhow.
Qed.

Lemma manual_lint_clean_witness :
  let text := Fixture.lines [py "---"; py "name: skill"; py "---";
                             py "### Available Roles"; py "- `alpha`";
                             py "### Usage";
                             py "See `references/a.md` and delegate.how-to.md."] in
  let fs := Fixture.skill text [py "common-roles/alpha.md"; py "references/a.md";
                                py "delegate.how-to.md"] in
  _manual_lint Fixture.insertion_order fs Fixture.root = Some []
  ∧ ∃ header,
      _parse_frontmatter text = Some header
      ∧ (_manual_lint Fixture.insertion_order fs Fixture.root = Some []
         ↔ length (Str.splitlines text) ≤ 500
           ∧ Str.contains (py "utilities/common-roles") text = false
           ∧ Header.name_accepted header (Path.name Fixture.root)
           ∧ path_is_dir fs (Fixture.root // py "common-roles") = Some true
           ∧ (∀ role, role ∈ roles_loop (Str.splitlines text) false [] →
                path_exists fs
                  (Fixture.root // py "common-roles" // (role ++ py ".md"))
                = Some true)
           ∧ (∀ ref, ref ∈ Re.findall Re.backticked_reference text →
                path_exists fs (Fixture.root // ref) = Some true)
           ∧ (Str.contains (py "delegate.how-to.md") text = true →
                path_exists fs (Fixture.root // py "delegate.how-to.md")
                = Some true)).
Proof.
  split; [vm_compute; reflexivity|].
  apply (manual_lint_clean Fixture.insertion_order
           (Fixture.skill
              (Fixture.lines [py "---"; py "name: skill"; py "---";
                              py "### Available Roles"; py "- `alpha`";
                             py "### Usage";
                              py "See `references/a.md` and delegate.how-to.md."])
              [py "common-roles/alpha.md"; py "references/a.md";
               py "delegate.how-to.md"])
           Fixture.root
           (Fixture.lines [py "---"; py "name: skill"; py "---";
                           py "### Available Roles"; py "- `alpha`";
                             py "### Usage";
                           py "See `references/a.md` and delegate.how-to.md."])).
  - vm_compute; reflexivity.
  - vm_compute; reflexivity.
Defined.

Section Raising.

Implicit Types (text : list N) (fs : FS) (repo_root : Path.t).
Implicit Types (python : Interpreter).

Lemma not_is_Some_None {A} (o : option A) : ¬ is_Some o ↔ o = None.
Proof. destruct o; split; try done. intros H. destruct H. by eexists. Qed.

(** The probes do not all return exactly when one of them raises. *)
Lemma probes_fail fs repo_root text :
  ¬ Report.probes_return fs repo_root text
  ↔ path_is_dir fs (repo_root // py "common-roles") = None
    ∨ (∃ role, role ∈ roles_loop (Str.splitlines text) false []
               ∧ path_exists fs
                   (repo_root // py "common-roles" // (role ++ py ".md"))
                 = None)
    ∨ (∃ ref, ref ∈ Re.findall Re.backticked_reference text
              ∧ path_exists fs (repo_root // ref) = None)
    ∨ (Str.contains (py "delegate.how-to.md") text = true
       ∧ path_exists fs (repo_root // py "delegate.how-to.md") = None).
Proof.
  unfold Report.probes_return, Report.role_file. split.
  - intros Hnot.
    destruct (path_is_dir fs (repo_root // py "common-roles")) as [present|];
      [|by left]. right.
    destruct (decide (Forall (λ role, is_Some (path_exists fs
                (repo_root // py "common-roles" // (role ++ py ".md"))))
                (roles_loop (Str.splitlines text) false []))) as [Hroles|Hroles].
    2: { left. apply not_Forall_Exists, Exists_exists in Hroles
           as (role & Hin & Hnone); [|apply _].
         exists role. split; [done|]. by apply not_is_Some_None. }
    right.
    destruct (decide (Forall (λ ref, is_Some (path_exists fs (repo_root // ref)))
                (Re.findall Re.backticked_reference text))) as [Hrefs|Hrefs].
    2: { left. apply not_Forall_Exists, Exists_exists in Hrefs
           as (ref & Hin & Hnone); [|apply _].
         exists ref. split; [done|]. by apply not_is_Some_None. }
    right.
    destruct (Str.contains (py "delegate.how-to.md") text) eqn:Hc.
    + split; [done|]. apply not_is_Some_None. intros Hsome. apply Hnot.
      by repeat split; eauto.
    + destruct Hnot. by repeat split; eauto.
  - intros [Hdir | [(role & Hin & Hnone) | [(ref & Hin & Hnone) | [Hc Hnone]]]]
      (Hd & Hroles & Hrefs & Hhow).
    + rewrite Hdir in Hd. by destruct Hd.
    + rewrite Forall_forall in Hroles. specialize (Hroles role Hin).
      rewrite Hnone in Hroles. by destruct Hroles.
    + rewrite Forall_forall in Hrefs. specialize (Hrefs ref Hin).
      rewrite Hnone in Hrefs. by destruct Hrefs.
    + specialize (Hhow Hc). rewrite Hnone in Hhow. by destruct Hhow.
Qed.

End Raising.

(** X8: the rule checker fails to return a report exactly when a probe it
    makes raises or the manifest exists and cannot be read: the probe of
    the manifest, or, once the manifest is read, the probe of the companion
    directory, of the file of a collected role, of a referenced path, or,
    if the text mentions it, of the how-to file. *)
Theorem manual_lint_raises_iff
    (python : Interpreter) (fs : FS) (repo_root : Path.t) :
  _manual_lint python fs repo_root = None
  ↔ path_exists fs (repo_root // py "SKILL.md") = None
    ∨ (path_exists fs (repo_root // py "SKILL.md") = Some true
       ∧ (path_read_text fs (repo_root // py "SKILL.md") = None
          ∨ ∃ text,
              path_read_text fs (repo_root // py "SKILL.md") = Some text
              ∧ (path_is_dir fs (repo_root // py "common-roles") = None
                 ∨ (∃ role,
                      role ∈ roles_loop (Str.splitlines text) false []
                      ∧ path_exists fs
                          (repo_root // py "common-roles" // (role ++ py ".md"))
                        = None)
                 ∨ (∃ ref,
                      ref ∈ Re.findall Re.backticked_reference text
                      ∧ path_exists fs (repo_root // ref) = None)
                 ∨ (Str.contains (py "delegate.how-to.md") text = true
                    ∧ path_exists fs (repo_root // py "delegate.how-to.md")
                      = None)))).
Proof.
  destruct (path_exists fs (repo_root // py "SKILL.md")) as [[|]|] eqn:Hex.
  - destruct (path_read_text fs (repo_root // py "SKILL.md"))
      as [text|] eqn:Hread.
    + destruct (parse_frontmatter_total text) as [header Hh].
      pose proof (manual_lint_Some python fs repo_root text header) as Hsome.
      split.
      * intros Hnone. right. split; [done|]. right. exists text.
        split; [done|]. apply probes_fail. intros Hprobes.
        by rewrite (proj2 (Hsome _ Hex Hread Hh) (conj Hprobes eq_refl))
          in Hnone.
      * intros [? | [_ [? | (text' & [= <-] & Hfail)]]]; try done.
        apply probes_fail in Hfail.
        destruct (_manual_lint _ _ _) as [errors|] eqn:Hlint; [|done].
        destruct Hfail. by apply (Hsome errors Hex Hread Hh).
    + unfold _manual_lint. rewrite Hex. simpl. rewrite Hread. simpl.
      split; [|done]. intros _. right. split; [done|]. by left.
  - unfold _manual_lint. rewrite Hex. simpl.
    split; [done | by intros [? | [? _]]].
  - unfold _manual_lint. rewrite Hex. simpl. split; [by left | done].
Qed.

(** ** The tokens the patterns find *)

Section Tokens.

Implicit Types (c : N) (s g body pre post : list N) (p : N → bool).
Implicit Types (m : Re.matcher).

Lemma match_backtick {A} c (x y : A) :
  match c with 96%N => x | _ => y end = if (c =? 96)%N then x else y.
Proof.
  destruct c as [|q]; [done|].
  repeat (destruct q as [q|q|]; try reflexivity).
Qed.

Lemma run_of_split p s :
  s = Re.run_of p s ++ drop (length (Re.run_of p s)) s.
Proof.
  induction s as [|c s IH]; simpl; [done|].
  destruct (p c); simpl; [by rewrite <- IH | done].
Qed.

Lemma run_of_all p s c : c ∈ Re.run_of p s → p c = true.
Proof.
  induction s as [|a s IH]; simpl; [by intros ?%elem_of_nil|].
  destruct (p a) eqn:Ha; [|by intros ?%elem_of_nil].
  intros [-> | Hin]%elem_of_cons; [done | by apply IH].
Qed.

Lemma run_of_not_backtick s : 96%N ∉ Re.run_of Re.not_backtick s.
Proof. intros Hin%run_of_all. done. Qed.

(** Every match reported is a match of the pattern at some place. *)
Lemma findall_from_origin m (skip : nat) s g :
  g ∈ Re.findall_from m skip s →
  ∃ pre s' n, s = pre ++ s' ∧ m s' = Some (g, n).
Proof.
  revert skip. induction s as [|c s IH]; intros skip; simpl;
    [by intros ?%elem_of_nil|].
  assert (∀ k, g ∈ Re.findall_from m k s →
               ∃ pre s' n, c :: s = pre ++ s' ∧ m s' = Some (g, n)) as Hrest.
  { intros k (pre & s' & n & -> & Hm)%IH. by exists (c :: pre), s', n. }
  destruct skip as [|k]; [|apply Hrest].
  destruct (m (c :: s)) as [[group len]|] eqn:Hm; [|apply Hrest].
  intros [-> | Hin]%elem_of_cons; [|by eapply Hrest].
  by exists [], (c :: s), len.
Qed.

Lemma backticked_Some s g (n : nat) :
  Re.backticked s = Some (g, n) →
  ∃ post, s = 96%N :: g ++ 96%N :: post ∧ g ≠ [] ∧ 96%N ∉ g.
Proof.
  destruct s as [|c s1]; [done|]. unfold Re.backticked.
  rewrite match_backtick. destruct (N.eqb_spec c 96) as [-> | _]; [|done].
  pose proof (run_of_split Re.not_backtick s1) as Hsplit.
  pose proof (run_of_not_backtick s1) as Hno.
  destruct (Re.run_of Re.not_backtick s1) as [|b body]; [done|].
  destruct (drop _ s1) as [|d post]; [done|].
  rewrite match_backtick. destruct (N.eqb_spec d 96) as [-> | _]; [|done].
  intros [= <- _]. exists post. by rewrite Hsplit at 1.
Qed.

Lemma backticked_reference_Some s g (n : nat) :
  Re.backticked_reference s = Some (g, n) →
  ∃ body post,
    g = py "references/" ++ body
    ∧ s = 96%N :: g ++ 96%N :: post ∧ body ≠ [] ∧ 96%N ∉ body.
Proof.
  destruct s as [|c s1]; [done|]. unfold Re.backticked_reference.
  rewrite match_backtick. destruct (N.eqb_spec c 96) as [-> | _]; [|done].
  cbv zeta.
  destruct (Str.startswith (py "references/") s1) eqn:Hlit; [|done].
  apply startswith_prefix in Hlit as [s2 ->]. rewrite drop_app_length.
  pose proof (run_of_split Re.not_backtick s2) as Hsplit.
  pose proof (run_of_not_backtick s2) as Hno.
  destruct (Re.run_of Re.not_backtick s2) as [|b body]; [done|].
  destruct (drop _ s2) as [|d post]; [done|].
  rewrite match_backtick. destruct (N.eqb_spec d 96) as [-> | _]; [|done].
  intros [= <- _]. exists (b :: body), post.
  split; [done|]. split; [|done]. rewrite Hsplit at 1. reflexivity.
Qed.

End Tokens.

(** X9: every role the role check reads off a line stands in that line
    between two backticks, is not empty and holds no backtick; every path
    the reference check reads off the text stands in the text between two
    backticks, and is [references/] followed by at least one character,
    none of them a backtick. *)
Theorem tokens_stand_in_backticks :
  (∀ line role : list N,
     role ∈ Re.findall Re.backticked line →
     (∃ pre post, line = pre ++ 96%N :: role ++ 96%N :: post)
     ∧ role ≠ [] ∧ (96%N ∉ role))
  ∧ (∀ text ref : list N,
       ref ∈ Re.findall Re.backticked_reference text →
       (∃ pre post, text = pre ++ 96%N :: ref ++ 96%N :: post)
       ∧ ∃ body, ref = py "references/" ++ body
                 ∧ body ≠ [] ∧ (96%N ∉ body)).
Proof.
  split.
  - intros line role (pre & s' & n & -> & Hm)%findall_from_origin.
    apply backticked_Some in Hm as (post & -> & Hne & Hno).
    split; [by exists pre, post | done].
  - intros text ref (pre & s' & n & -> & Hm)%findall_from_origin.
    apply backticked_reference_Some in Hm as (body & post & -> & -> & Hne & Hno).
    split; [by exists pre, post | by exists body].
Qed.

Lemma tokens_stand_in_backticks_witness :
  py "beta" ∈ Re.findall Re.backticked (py "| `alpha` | ``beta` |")
  ∧ (∃ pre post, py "| `alpha` | ``beta` |"
                 = pre ++ 96%N :: py "beta" ++ 96%N :: post)
  ∧ py "beta" ≠ [] ∧ (96%N ∉ py "beta").
Proof.
  split; [vm_compute; apply elem_of_cons; right; apply elem_of_cons; by left|].
  apply (proj1 tokens_stand_in_backticks (py "| `alpha` | ``beta` |") (py "beta")).
  vm_compute. apply elem_of_cons; right; apply elem_of_cons; by left.
Defined.

(** X10: a path of the reference check is never re-anchored by its token:
    the path probed has the root's anchor, and its components are the
    root's, then [references], then the components of the rest of the
    token, empty and [.] components dropped and [..] components kept. *)
Theorem reference_path_continues_root
    (repo_root : Path.t) (text ref : list N) :
  ref ∈ Re.findall Re.backticked_reference text →
  ∃ rest,
    ref = py "references/" ++ rest
    ∧ Path.anchor (repo_root // ref) = Path.anchor repo_root
    ∧ Path.parts (repo_root // ref)
      = Path.parts repo_root
        ++ py "references"
           :: filter (λ part, part ≠ [] ∧ part ≠ py ".") (Path.split_on 47 rest).
Proof.
  intros (pre & s' & n & -> & Hm)%findall_from_origin.
  apply backticked_reference_Some in Hm as (body & post & -> & _).
  exists body. split; [done|]. unfold Path.joinpath. simpl. by split.
Qed.

Lemma reference_path_continues_root_witness :
  ∃ rest,
    py "references/guides/../a.md" = py "references/" ++ rest
    ∧ Path.anchor (Fixture.root // py "references/guides/../a.md")
      = Path.anchor Fixture.root
    ∧ Path.parts (Fixture.root // py "references/guides/../a.md")
      = Path.parts Fixture.root
        ++ py "references"
           :: filter (λ part, part ≠ [] ∧ part ≠ py ".") (Path.split_on 47 rest).
Proof.
  apply (reference_path_continues_root Fixture.root
           (py "See `references/guides/../a.md`.")
           (py "references/guides/../a.md")).
  vm_compute. apply elem_of_cons. by left.
Defined.

(** X11: a role written with a leading slash is looked up at an absolute
    path: the path probed for it is anchored and does not depend on the
    document root. *)
Theorem absolute_role_ignores_root
    (repo_root repo_root' : Path.t) (role : list N) :
  head role = Some 47%N →
  repo_root // py "common-roles" // (role ++ py ".md")
  = repo_root' // py "common-roles" // (role ++ py ".md")
  ∧ Path.anchor (repo_root // py "common-roles" // (role ++ py ".md")) ≠ [].
Proof.
  destruct role as [|c role]; [done|]. intros [= ->].
  unfold Path.joinpath at 1 3 5.
  assert (∃ a anchor,
            Path.anchor (Path.parse ((47%N :: role) ++ py ".md")) = a :: anchor)
    as (a & anchor & Ha).
  { unfold Path.parse. cbn [Path.anchor].
    destruct (_ && _); [by eexists _, _|].
    change (Str.startswith (py "/") ((47%N :: role) ++ py ".md")) with true.
    by eexists _, _. }
  rewrite Ha. split; [done|]. by rewrite Ha.
Qed.

Lemma absolute_role_ignores_root_witness :
  head (py "/etc/motd") = Some 47%N
  ∧ Fixture.root // py "common-roles" // (py "/etc/motd" ++ py ".md")
    = Path.mk (py "/") [py "etc"; py "motd.md"].
Proof.
  split; [reflexivity|].
  rewrite (proj1 (absolute_role_ignores_root Fixture.root (Path.mk [] [])
                    (py "/etc/motd") eq_refl)).
  vm_compute. reflexivity.
Defined.


(** X12: a manifest none of whose lines is, trimmed, the heading
    [### Available Roles] has no role collected; a report returned for it
    holds no missing-role error, whatever it quotes in backticks and
    whatever the companion directory holds. *)
Theorem no_roles_heading_no_role_error
    (python : Interpreter) (fs : FS) (repo_root : Path.t)
    (text : list N) (errors : list (list N)) :
  path_exists fs (repo_root // py "SKILL.md") = Some true →
  path_read_text fs (repo_root // py "SKILL.md") = Some text →
  _manual_lint python fs repo_root = Some errors →
  Forall (λ line, Str.strip line ≠ py "### Available Roles")
    (Str.splitlines text) →
  roles_loop (Str.splitlines text) false [] = []
  ∧ Report.select Report.is_missing_role errors = [].
Proof.
  intros Hex Hread Hlint Hnone.
  destruct (manual_lint_kinds python fs repo_root text errors Hex Hread Hlint)
    as (header & _ & _ & _ & _ & _ & _ & Hroles & _).
  assert (roles_loop (Str.splitlines text) false [] = []) as Hloop.
  { rewrite roles_loop_section. unfold Spec.roles_section.
    rewrite after_none; [done|].
    eapply Forall_impl; [exact Hnone|]. intros line Hline.
    rewrite is_roles_heading_decide. by apply bool_decide_eq_false_2. }
  split; [done|]. by rewrite Hroles, Hloop.
Qed.

Lemma no_roles_heading_no_role_error_witness :
  let text := Fixture.lines [py "## Available Roles"; py "- `alpha`";
                             py "### Roles"; py "- `beta`"] in
  _manual_lint Fixture.insertion_order
    (Fixture.disk [(Fixture.root // py "SKILL.md", text)] []) Fixture.root
  = Some [py "Missing common-roles/ directory."]
  ∧ roles_loop (Str.splitlines text) false [] = []
  ∧ Report.select Report.is_missing_role
      [py "Missing common-roles/ directory."] = [].
Proof.
  split; [vm_compute; reflexivity|].
  apply (no_roles_heading_no_role_error Fixture.insertion_order
           (Fixture.disk
              [(Fixture.root // py "SKILL.md",
                Fixture.lines [py "## Available Roles"; py "- `alpha`";
                               py "### Roles"; py "- `beta`"])] [])
           Fixture.root
           (Fixture.lines [py "## Available Roles"; py "- `alpha`";
                           py "### Roles"; py "- `beta`"])
           [py "Missing common-roles/ directory."]).
  - vm_compute; reflexivity.
  - vm_compute; reflexivity.
  - vm_compute; reflexivity.
  - vm_compute. repeat constructor; discriminate.
Defined.

(** ** The error stream *)

Section Stream.

Implicit Types (c : N) (l rest e : list N) (errors : list (list N)).




End Stream.


